(** * Price & Financials dashboard: the fetch pipeline and the table formatter

    A shallow embedding of [streamlit_app.py]: [load_data] with its two local
    helpers [latest_col] and [pretty_period], and [format_commas] with its
    local helper [fmt].  Python values, exceptions, the float conversions the
    formatter relies on and the small part of the pandas DataFrame interface
    the program calls are modelled first; the program follows. *)

From Stdlib Require Import ZArith Ascii String List Decimal DecimalPos Lia.
From Stdlib Require DecimalFacts.
From Stdlib Require Import Floats.SpecFloat.
From stdpp Require Import base gmap strings list.

(** ** Python values, exceptions and float conversions *)

Module Py.

(** Exceptions the modelled calls can raise. *)
Inductive exn :=
  | TypeError
  | ValueError
  | KeyError
  | OverflowError
  | ProviderError (msg : string).

(** The outcome of a Python call: a value, or a raised exception. *)
Inductive result (A : Type) :=
  | Ok (a : A)
  | Raise (e : exn).
Arguments Ok {A} a.
Arguments Raise {A} e.

Definition bind {A B} (c : result A) (k : A -> result B) : result B :=
  match c with
  | Ok a => k a
  | Raise e => Raise e
  end.

(** [try: c  except Exception: h] *)
Definition try_except {A} (c : result A) (h : result A) : result A :=
  match c with
  | Ok a => Ok a
  | Raise _ => h
  end.

(** A pandas [Timestamp], to the second. *)
Record Timestamp := {
  year : Z; month : Z; day : Z;
  hour : Z; minute : Z; second : Z
}.

(** Scalar values found in DataFrame cells and provider metadata.  [PFloat]
    carries an IEEE binary64 value; [PNA] is pandas' missing-value singleton
    [pd.NA] and [PNaT] its not-a-time [pd.NaT]. *)
Inductive pyval :=
  | PNone
  | PNA
  | PNaT
  | PBool (b : bool)
  | PInt (z : Z)
  | PFloat (f : spec_float)
  | PStr (s : string)
  | PTime (t : Timestamp).

(** Hashable labels of a DataFrame axis (column identifiers, row names). *)
Inductive label :=
  | LNone
  | LStr (s : string)
  | LInt (z : Z)
  | LTime (t : Timestamp).

Definition val_of_label (l : label) : pyval :=
  match l with
  | LNone => PNone
  | LStr s => PStr s
  | LInt z => PInt z
  | LTime t => PTime t
  end.

(** *** Decimal digits *)

Fixpoint chars_of_uint (d : Decimal.uint) : list ascii :=
  match d with
  | Nil => []
  | D0 d => "0"%char :: chars_of_uint d
  | D1 d => "1"%char :: chars_of_uint d
  | D2 d => "2"%char :: chars_of_uint d
  | D3 d => "3"%char :: chars_of_uint d
  | D4 d => "4"%char :: chars_of_uint d
  | D5 d => "5"%char :: chars_of_uint d
  | D6 d => "6"%char :: chars_of_uint d
  | D7 d => "7"%char :: chars_of_uint d
  | D8 d => "8"%char :: chars_of_uint d
  | D9 d => "9"%char :: chars_of_uint d
  end.

(** The decimal digits of a natural number, most significant first. *)
Definition digits (n : N) : list ascii := chars_of_uint (N.to_uint n).

Definition is_digit (c : ascii) : bool :=
  let n := nat_of_ascii c in (48 <=? n)%nat && (n <=? 57)%nat.

Definition digit_val (c : ascii) : Z := Z.of_nat (nat_of_ascii c) - 48.

(** The number written by a list of digits. *)
Definition Z_of_digits (ds : list ascii) : Z :=
  fold_left (fun acc c => 10 * acc + digit_val c)%Z ds 0%Z.

(** [str(z)] for an int. *)
Definition str_of_Z (z : Z) : string :=
  let ds := string_of_list_ascii (digits (Z.to_N (Z.abs z))) in
  if (z <? 0)%Z then String "-" ds else ds.

(** Digits of [z] left-padded with zeros to [width] characters (the [%m]
    and [%d] fields of [strftime], and the fields of an ISO date). *)
Definition zero_pad (width : nat) (z : Z) : list ascii :=
  let ds := digits (Z.to_N z) in
  replicate (width - length ds) "0"%char ++ ds.

(** Whether padding [n] to [w] characters gives exactly [w] digits. *)
Definition pad_ok (w : nat) (n : nat) : bool :=
  let cs := zero_pad w (Z.of_nat n) in
  (length cs =? w)%nat && forallb is_digit cs.

(** *** binary64 *)

Definition prec : Z := 53.
Definition emax : Z := 1024.

(** [float(z)] for an int: the nearest double, ties to even;
    [OverflowError] when the int is too large. *)
Definition float_of_int (z : Z) : result spec_float :=
  match binary_normalize prec emax z 0 false with
  | S754_infinity _ => Raise OverflowError
  | f => Ok f
  end.

(** The double nearest to [(-1)^neg * m * 10^e], as [strtod] computes it:
    overflow gives an infinity, underflow a signed zero. *)
Definition float_of_decimal (neg : bool) (m : Z) (e : Z) : spec_float :=
  match m with
  | Zpos p =>
      if (0 <=? e)%Z
      then binary_normalize prec emax (cond_Zopp neg (m * 10 ^ e)) 0 false
      else SFdiv prec emax (S754_finite neg p 0)
                           (S754_finite false (Z.to_pos (10 ^ (- e))) 0)
  | _ => S754_zero neg
  end.

(** White space as [str.strip] sees it, on ASCII text: the characters 9 to
    13, 28 to 31 and the blank. *)
Definition is_space (c : ascii) : bool :=
  let n := nat_of_ascii c in
  ((9 <=? n)%nat && (n <=? 13)%nat) || ((28 <=? n)%nat && (n <=? 32)%nat).

Fixpoint lstrip (cs : list ascii) : list ascii :=
  match cs with
  | c :: cs' => if is_space c then lstrip cs' else cs
  | [] => []
  end.

Definition strip (cs : list ascii) : list ascii :=
  rev (lstrip (rev (lstrip cs))).

(** White space as [float] sees it, on ASCII text: the characters 9 to 13
    and the blank, and no others. *)
Definition is_float_space (c : ascii) : bool :=
  let n := nat_of_ascii c in
  ((9 <=? n)%nat && (n <=? 13)%nat) || (n =? 32)%nat.

Fixpoint float_lstrip (cs : list ascii) : list ascii :=
  match cs with
  | c :: cs' => if is_float_space c then float_lstrip cs' else cs
  | [] => []
  end.

(** What [float] strips from both ends of a string before reading it. *)
Definition float_strip (cs : list ascii) : list ascii :=
  rev (float_lstrip (rev (float_lstrip cs))).

(** Underscores in a numeric literal: each one must sit between two digits
    and is dropped; [None] when one is misplaced. *)
Fixpoint drop_underscores (prev_digit : bool) (cs : list ascii)
  : option (list ascii) :=
  match cs with
  | [] => Some []
  | c :: cs' =>
      if Ascii.eqb c "_"
      then match cs' with
           | d :: _ =>
               if prev_digit && is_digit d
               then drop_underscores false cs'
               else None
           | [] => None
           end
      else option_map (cons c) (drop_underscores (is_digit c) cs')
  end.

Definition lower (c : ascii) : ascii :=
  let n := nat_of_ascii c in
  if (65 <=? n)%nat && (n <=? 90)%nat then ascii_of_nat (n + 32) else c.

(** Splits an optional sign off the front. *)
Definition take_sign (cs : list ascii) : bool * list ascii :=
  match cs with
  | c :: cs' =>
      if Ascii.eqb c "-" then (true, cs')
      else if Ascii.eqb c "+" then (false, cs')
      else (false, cs)
  | [] => (false, [])
  end.

(** The longest prefix of digits, and what follows it. *)
Fixpoint span_digits (cs : list ascii) : list ascii * list ascii :=
  match cs with
  | c :: cs' =>
      if is_digit c
      then let '(ds, rest) := span_digits cs' in (c :: ds, rest)
      else ([], cs)
  | [] => ([], [])
  end.

(** The exponent part [e[+-]digits] of a literal, or nothing. *)
Definition parse_exponent (cs : list ascii) : option Z :=
  match cs with
  | [] => Some 0%Z
  | c :: cs' =>
      if Ascii.eqb (lower c) "e"
      then let '(neg, cs'') := take_sign cs' in
           match span_digits cs'' with
           | ((_ :: _) as ds, []) => Some (cond_Zopp neg (Z_of_digits ds))
           | _ => None
           end
      else None
  end.

(** The finite literals: [digits[.digits][exp]] or [.digits[exp]]. *)
Definition parse_decimal (neg : bool) (cs : list ascii) : option spec_float :=
  let '(ip, rest) := span_digits cs in
  let '(fp, rest') :=
    match rest with
    | c :: r => if Ascii.eqb c "." then span_digits r else ([], rest)
    | [] => ([], [])
    end in
  match ip ++ fp with
  | [] => None
  | ds =>
      match parse_exponent rest' with
      | Some e =>
          Some (float_of_decimal neg (Z_of_digits ds) (e - Z.of_nat (length fp)))
      | None => None
      end
  end.

(** [float(s)] for a str (ASCII text): surrounding whitespace is ignored,
    then comes an optional sign and one of [inf], [infinity], [nan] (in any
    case) or a decimal literal; anything else is a [ValueError]. *)
Definition float_of_str (s : string) : result spec_float :=
  match drop_underscores false (float_strip (list_ascii_of_string s)) with
  | None => Raise ValueError
  | Some cs =>
      let '(neg, body) := take_sign cs in
      let word := string_of_list_ascii (map lower body) in
      if String.eqb word "inf" || String.eqb word "infinity"
      then Ok (S754_infinity neg)
      else if String.eqb word "nan"
      then Ok S754_nan
      else match parse_decimal neg body with
           | Some f => Ok f
           | None => Raise ValueError
           end
  end.

(** [float(x)] *)
Definition float (x : pyval) : result spec_float :=
  match x with
  | PBool b => Ok (if b then S754_finite false 4503599627370496 (-52)
                   else S754_zero false)
  | PInt z => float_of_int z
  | PFloat f => Ok f
  | PStr s => float_of_str s
  | PNone | PNA | PNaT | PTime _ => Raise TypeError
  end.

(** [pd.isna(x)] on a scalar. *)
Definition isna (x : pyval) : bool :=
  match x with
  | PNone | PNA | PNaT | PFloat S754_nan => true
  | _ => false
  end.

(** [bool(x)]: the truth value [or] and [if] test; [pd.NA] has none, and
    [pd.NaT] is true like any other object. *)
Definition truthy (x : pyval) : result bool :=
  match x with
  | PNone => Ok false
  | PNA => Raise TypeError
  | PNaT => Ok true
  | PBool b => Ok b
  | PInt z => Ok (negb (z =? 0)%Z)
  | PFloat (S754_zero _) => Ok false
  | PFloat _ => Ok true
  | PStr s => Ok (negb (String.eqb s ""))
  | PTime _ => Ok true
  end.

(** [a or b] *)
Definition py_or (a b : pyval) : result pyval :=
  bind (truthy a) (fun t => Ok (if t then a else b)).

(** *** The format specification [",.0f"] *)

(** The integer nearest to [m * 2^e], ties to even. *)
Definition round_half_even (m : positive) (e : Z) : N :=
  match e with
  | Zneg k =>
      let d := (2 ^ Zpos k)%Z in
      let q := (Zpos m / d)%Z in
      let r := (Zpos m mod d)%Z in
      Z.to_N (match (2 * r ?= d)%Z with
              | Lt => q
              | Eq => if Z.even q then q else q + 1
              | Gt => q + 1
              end)%Z
  | _ => Z.to_N (Zpos m * 2 ^ e)
  end.

(** Thousands separators, on the digits least significant first. *)
Fixpoint group3_rev (ds : list ascii) : list ascii :=
  match ds with
  | a :: b :: c :: rest =>
      match rest with
      | [] => ds
      | _ :: _ => a :: b :: c :: ","%char :: group3_rev rest
      end
  | _ => ds
  end.

Definition group3 (ds : list ascii) : list ascii := rev (group3_rev (rev ds)).

Definition signed (neg : bool) (body : list ascii) : string :=
  string_of_list_ascii (if neg then "-"%char :: body else body).

(** [f"{v:,.0f}"] *)
Definition format_comma_0f (v : spec_float) : string :=
  match v with
  | S754_nan => "nan"
  | S754_infinity s => signed s (list_ascii_of_string "inf")
  | S754_zero s => signed s (group3 (digits 0))
  | S754_finite s m e => signed s (group3 (digits (round_half_even m e)))
  end.

(** *** What a number with thousands separators looks like *)

(** Read from the right: groups of three digits, each preceded by a comma,
    up to a leading group of one to three digits. *)
Fixpoint groups_rev (cs : list ascii) : bool :=
  match cs with
  | [] => false
  | [a] => is_digit a
  | [a; b] => is_digit a && is_digit b
  | [a; b; c] => is_digit a && is_digit b && is_digit c
  | a :: b :: c :: sep :: rest =>
      is_digit a && is_digit b && is_digit c && Ascii.eqb sep ","
      && groups_rev rest
  end.

Definition grouped (cs : list ascii) : bool := groups_rev (rev cs).

(** An integer written with thousands separators and no decimal point:
    an optional minus sign, then grouped digits. *)
Definition is_comma_int (s : string) : bool :=
  match list_ascii_of_string s with
  | c :: cs => if Ascii.eqb c "-" then grouped cs else grouped (c :: cs)
  | [] => false
  end.

Definition remove_commas (cs : list ascii) : list ascii :=
  List.filter (fun c => negb (Ascii.eqb c ",")) cs.

(** A finite float: a zero or a nonzero finite number. *)
Definition is_finite (v : spec_float) : bool :=
  match v with
  | S754_zero _ | S754_finite _ _ _ => true
  | _ => false
  end.

(** The integer a finite float is nearest to, ties to even, without sign. *)
Definition nearest_int (v : spec_float) : N :=
  match v with
  | S754_finite _ m e => round_half_even m e
  | _ => 0%N
  end.

(** Whether the float carries a minus sign. *)
Definition sign_bit (v : spec_float) : bool :=
  match v with
  | S754_zero s | S754_infinity s | S754_finite s _ _ => s
  | S754_nan => false
  end.

End Py.

(** ** The pandas DataFrame interface the program uses *)

Module Pandas.
Import Py.

#[export] Instance Timestamp_eq_dec : EqDecision Timestamp.
Proof. solve_decision. Defined.
#[export] Instance label_eq_dec : EqDecision label.
Proof. solve_decision. Defined.

(** A DataFrame with an unnamed, single-level row index: the column labels,
    the row labels, and the cells column by column. *)
Record DataFrame := {
  columns : list label;
  index : list label;
  values : list (list pyval)
}.

(** One cell list per column label, each as long as the index. *)
Definition rectangular (df : DataFrame) : Prop :=
  length (values df) = length (columns df) /\
  Forall (fun c => length c = length (index df)) (values df).

(** [df.empty]: an axis of length zero. *)
Definition empty (df : DataFrame) : bool :=
  (length (columns df) =? 0)%nat || (length (index df) =? 0)%nat.

(** [key in df.columns] *)
Definition has_column (df : DataFrame) (key : label) : bool :=
  bool_decide (key ∈ columns df).

(** The columns carrying label [key], in table order: labels and cells. *)
Fixpoint labelled (key : label) (ls : list label) (vs : list (list pyval))
  : list (label * list pyval) :=
  match ls, vs with
  | l :: ls', v :: vs' =>
      if bool_decide (l = key)
      then (l, v) :: labelled key ls' vs'
      else labelled key ls' vs'
  | _, _ => []
  end.

(** [df[keys]] with a list of labels: every column carrying one of the
    labels, [KeyError] when a label is carried by none. *)
Definition getitem_list (df : DataFrame) (keys : list label)
  : result DataFrame :=
  if forallb (has_column df) keys
  then let picked :=
         flat_map (fun k => labelled k (columns df) (values df)) keys in
       Ok {| columns := map fst picked;
             index := index df;
             values := map snd picked |}
  else Raise KeyError.

(** The default index [RangeIndex(n)]. *)
Definition range_index (n : nat) : list label :=
  map (fun i => LInt (Z.of_nat i)) (seq 0 n).

(** [df.reset_index()]: the row labels become the first column, named
    ["index"], or ["level_0"] when that name is taken; [ValueError] when the
    chosen name is taken too. *)
Definition reset_index (df : DataFrame) : result DataFrame :=
  let name := if has_column df (LStr "index")
              then LStr "level_0" else LStr "index" in
  if has_column df name
  then Raise ValueError
  else Ok {| columns := name :: columns df;
             index := range_index (length (index df));
             values := map val_of_label (index df) :: values df |}.

(** [df.columns = names]: [ValueError] on a length mismatch. *)
Definition set_columns (df : DataFrame) (names : list label)
  : result DataFrame :=
  if (length names =? length (columns df))%nat
  then Ok {| columns := names; index := index df; values := values df |}
  else Raise ValueError.

(** [df.columns[0]] of a frame that has a column. *)
Definition first_column (df : DataFrame) : label :=
  hd LNone (columns df).

(** References to DataFrame objects, and the object store. *)
Abbreviation ref := positive.
Abbreviation heap := (gmap positive DataFrame).

(** [df.copy()]: a new object with the same content. *)
Definition copy (l : ref) (h : heap) : option (ref * heap) :=
  match h !! l with
  | Some df => let l' := fresh (dom h) in Some (l', <[l' := df]> h)
  | None => None
  end.

(** [Series.apply(f)]: [f] on every element, in order. *)
Fixpoint series_apply (f : pyval -> result pyval) (vs : list pyval)
  : result (list pyval) :=
  match vs with
  | [] => Ok []
  | v :: vs' =>
      bind (f v) (fun w =>
      bind (series_apply f vs') (fun ws => Ok (w :: ws)))
  end.

(** The cells of the frame with the column labelled [key] replaced. *)
Fixpoint replace_labelled (key : label) (new : list pyval)
  (ls : list label) (vs : list (list pyval)) : list (list pyval) :=
  match ls, vs with
  | l :: ls', v :: vs' =>
      (if bool_decide (l = key) then new else v)
        :: replace_labelled key new ls' vs'
  | _, _ => vs
  end.

(** [df[key] = df[key].apply(f)] on a frame that has the label.  When the
    label is carried by one column, [df[key]] is that column and [f] maps
    over its cells.  When several columns carry it, [df[key]] is a frame and
    [apply] hands [f] whole columns; the function given here ([fmt]) returns
    those as they are, and the cells stay unchanged. *)
Definition apply_to_column (df : DataFrame) (key : label)
  (f : pyval -> result pyval) : result DataFrame :=
  match labelled key (columns df) (values df) with
  | [(_, cells)] =>
      bind (series_apply f cells) (fun new =>
      Ok {| columns := columns df;
            index := index df;
            values := replace_labelled key new (columns df) (values df) |})
  | _ => Ok df
  end.

End Pandas.

(** ** The program *)

Module App.
Import Py Pandas.

(** What [yf.Ticker(tkr)] offers: [get_info()], [history(period, interval,
    auto_adjust)] and the three statement properties.  Each may raise; a
    metadata answer that is neither a dict nor [None] counts as raising,
    since [info.get] raises on it inside the same [try]. *)
Record Ticker := {
  get_info : result (option (gmap string pyval));
  history : string -> string -> bool -> result DataFrame;
  income_stmt : result (option DataFrame);
  balance_sheet : result (option DataFrame);
  cashflow : result (option DataFrame)
}.

(** The dictionary [load_data] returns. *)
Record Data := {
  name : pyval;
  hist : DataFrame;
  inc : option DataFrame;
  inc_period : string;
  bal : option DataFrame;
  bal_period : string;
  cf : option DataFrame;
  cf_period : string
}.

(** [str(col)] for a column identifier. *)
Definition str (col : label) : string :=
  match col with
  | LNone => "None"
  | LStr s => s
  | LInt z => str_of_Z z
  | LTime t =>
      string_of_list_ascii
        (zero_pad 4 (year t) ++ "-"%char :: zero_pad 2 (month t)
         ++ "-"%char :: zero_pad 2 (day t) ++ " "%char :: zero_pad 2 (hour t)
         ++ ":"%char :: zero_pad 2 (minute t)
         ++ ":"%char :: zero_pad 2 (second t))
  end.

(** The ISO text of a date, [str(ts.date())]: the year padded to four
    digits, month and day to two. *)
Definition strftime_Ymd (t : Timestamp) : string :=
  string_of_list_ascii
    (zero_pad 4 (year t) ++ "-"%char :: zero_pad 2 (month t)
     ++ "-"%char :: zero_pad 2 (day t)).

(** [ts.strftime("%Y-%m-%d")]: [%Y] is the year as the C library writes it,
    without padding; [%m] and [%d] are padded to two digits. *)
Definition percent_Y_m_d (t : Timestamp) : string :=
  string_of_list_ascii
    (digits (Z.to_N (year t)) ++ "-"%char :: zero_pad 2 (month t)
     ++ "-"%char :: zero_pad 2 (day t)).





(** [dict.get(key)], [None] when the key is missing. *)
Definition dict_get (d : gmap string pyval) (key : string) : pyval :=
  default PNone (d !! key).

(** [x or {}] for the metadata: [None] and the empty dict are falsy. *)
Definition or_empty_dict (x : option (gmap string pyval))
  : gmap string pyval :=
  default ∅ x.

(** The (item, value) rows of a statement snapshot: the cells of its two
    columns side by side; none when the table is absent. *)
Definition rows (t : option DataFrame) : list (pyval * pyval) :=
  match t with
  | Some {| values := [items; vals] |} => zip items vals
  | _ => []
  end.

Section Program.

(** The data provider, [yf.Ticker]. *)
Variable yf_Ticker : string -> Ticker.

(** [pd.to_datetime] on a string: a timestamp, [NaT] ([None] here), or an
    exception when the string is no date. *)
Variable to_datetime : string -> result (option Timestamp).

(** [NaT.strftime] raises. *)
Definition strftime (d : option Timestamp) : result string :=
  match d with
  | Some t => Ok (percent_Y_m_d t)
  | None => Raise ValueError
  end.

Definition latest_col (df : option DataFrame)
  : result (option DataFrame * label) :=
  match df with
  | None => Ok (None, LNone)
  | Some df =>
      if empty df then Ok (None, LNone)
      else
        let col := first_column df in
        bind (getitem_list df [col]) (fun sel =>
        bind (reset_index sel) (fun out =>
        bind (set_columns out [LStr "Item"; LStr "Value"]) (fun out =>
        Ok (Some out, col))))
  end.

Definition pretty_period (col : label) : result string :=
  match col with
  | LNone => Ok "N/A"
  | _ => try_except (bind (to_datetime (str col)) strftime) (Ok (str col))
  end.

(** The block "Meta / names" of [load_data]: the long name, else the short
    name, and [None] when anything in the [try] raises. *)
Definition meta_name (t : Ticker) : result pyval :=
  try_except
    (bind (get_info t) (fun i =>
     let info := or_empty_dict i in
     py_or (dict_get info "longName") (dict_get info "shortName")))
    (Ok PNone).

(** The block "Price history" of [load_data], after the provider call:
    [hist[["Close"]].copy()] unless the frame is empty. *)
Definition close_only (hist : DataFrame) : result DataFrame :=
  if negb (empty hist)
  then getitem_list hist [LStr "Close"]
  else Ok hist.

Definition load_data (tkr : string) : result Data :=
  let t := yf_Ticker tkr in
  bind (meta_name t) (fun name =>
  bind (history t "5y" "1d" true) (fun hist =>
  bind (close_only hist) (fun hist =>
  bind (income_stmt t) (fun income_a =>
  bind (balance_sheet t) (fun balance_a =>
  bind (cashflow t) (fun cashflow_a =>
  bind (latest_col income_a) (fun '(inc_latest, inc_col) =>
  bind (latest_col balance_a) (fun '(bal_latest, bal_col) =>
  bind (latest_col cashflow_a) (fun '(cf_latest, cf_col) =>
  bind (pretty_period inc_col) (fun inc_p =>
  bind (pretty_period bal_col) (fun bal_p =>
  bind (pretty_period cf_col) (fun cf_p =>
  Ok {| name := name;
        hist := hist;
        inc := inc_latest;
        inc_period := inc_p;
        bal := bal_latest;
        bal_period := bal_p;
        cf := cf_latest;
        cf_period := cf_p |})))))))))))).

End Program.

(** The local function [fmt] of [format_commas]. *)
Definition fmt (x : pyval) : result pyval :=
  try_except
    (if isna x then Ok (PStr "")
     else bind (float x) (fun v => Ok (PStr (format_comma_0f v))))
    (Ok x).

(** [format_commas], on references into the object store (a reference held
    by the program always points into it): the frame is returned as it is
    when absent or empty; otherwise a copy is made and its ["Value"] column,
    when there is one, is overwritten in the copy. *)
Definition format_commas (df : option ref) (h : heap)
  : result (option ref) * heap :=
  match df with
  | None => (Ok df, h)
  | Some l =>
      match h !! l with
      | None => (Ok df, h)
      | Some d =>
          if empty d then (Ok df, h)
          else
            match copy l h with
            | None => (Ok df, h)
            | Some (out, h) =>
                match h !! out with
                | None => (Ok (Some out), h)
                | Some o =>
                    if has_column o (LStr "Value")
                    then match apply_to_column o (LStr "Value") fmt with
                         | Ok o' => (Ok (Some out), <[out := o']> h)
                         | Raise e => (Raise e, h)
                         end
                    else (Ok (Some out), h)
                end
            end
      end
  end.

(** A statement table as the provider delivers it: rectangular, one column
    per reporting period. *)
Definition statement_table (df : DataFrame) : Prop :=
  rectangular df /\ NoDup (columns df).

(** What a statement accessor hands over: nothing, an empty frame, or a
    statement table. *)
Definition statement_ok (t : option DataFrame) : Prop :=
  forall df, t = Some df -> empty df = false -> statement_table df.

(** A price table as the provider delivers it: when it has rows, it is
    rectangular and has a ["Close"] column. *)
Definition price_table (h : DataFrame) : Prop :=
  empty h = false -> rectangular h /\ LStr "Close" ∈ columns h.

(** No data for a statement: the table is absent or has no rows. *)
Definition no_rows (t : option DataFrame) : Prop :=
  match t with
  | None => True
  | Some df => index df = []
  end.

End App.

(** ** The cache in front of [load_data] *)

Module Cache.

(** [ttl=3600] of the decorator on [load_data], in seconds. *)
Definition TTL : Z := 3600.

Section Cache.

(** The cached pipeline: it reads the outside world [W] and yields a
    result [R]. *)
Context {R W : Type}.
Variable pipeline : string -> W -> R * W.

(** The mapping from ticker to (result, computed_at), the outside world, and
    the tickers the pipeline was invoked for, oldest first. *)
Record state := {
  entries : gmap string (R * Z);
  world : W;
  invoked : list string
}.

Definition refetch (ticker : string) (now : Z) (s : state) : R * state :=
  let '(r, w) := pipeline ticker (world s) in
  (r, {| entries := <[ticker := (r, now)]> (entries s);
         world := w;
         invoked := invoked s ++ [ticker] |}).

(** Modelled from the spec: the memoisation behind [@st.cache_data(ttl=3600)]
    is Streamlit's and is not part of the source; only the time-to-live and
    the key (the ticker argument) are.  Section 4.2: if an entry exists for
    the ticker and [now - computed_at < TTL], return the stored result
    without invoking the pipeline; otherwise invoke the pipeline, store the
    new result with the current timestamp keyed by the ticker, and return
    it. *)
Definition get_or_fetch (ticker : string) (now : Z) (s : state) : R * state :=
  match entries s !! ticker with
  | Some (r, computed_at) =>
      if (now - computed_at <? TTL)%Z then (r, s) else refetch ticker now s
  | None => refetch ticker now s
  end.

End Cache.

Arguments state : clear implicits.

End Cache.

(** ** Concrete tables and providers used in examples *)

Module Sample.
Import Py Pandas App.

Definition date (y m d : Z) : Timestamp :=
  {| year := y; month := m; day := d; hour := 0; minute := 0; second := 0 |}.

(** A parser for strings that start [YYYY-MM-DD], standing in for
    [pd.to_datetime] where an example needs one. *)
Definition iso_to_datetime (s : string) : result (option Timestamp) :=
  match list_ascii_of_string s with
  | y1 :: y2 :: y3 :: y4 :: d1 :: m1 :: m2 :: d2 :: a :: b :: _ =>
      if forallb is_digit [y1; y2; y3; y4; m1; m2; a; b]
         && Ascii.eqb d1 "-" && Ascii.eqb d2 "-"
      then Ok (Some (date (Z_of_digits [y1; y2; y3; y4])
                          (Z_of_digits [m1; m2]) (Z_of_digits [a; b])))
      else Raise ValueError
  | _ => Raise ValueError
  end.

Definition float_1 : pyval := PFloat (S754_finite false 4503599627370496 (-52)).
Definition float_10 : pyval := PFloat (S754_finite false 5 1).
Definition float_11 : pyval := PFloat (S754_finite false 11 0).
Definition float_nan : pyval := PFloat S754_nan.

(** An income statement with two reporting periods. *)
Definition income : DataFrame :=
  {| columns := [LTime (date 2023 12 31); LTime (date 2022 12 31)];
     index := [LStr "Revenue"; LStr "Currency"; LStr "Tax Rate"];
     values := [[PInt 1000000; PStr "USD"; float_nan];
                [PInt 900000; PStr "USD"; float_1]] |}.

(** A frame in which the first period label occurs twice. *)
Definition income_repeated : DataFrame :=
  {| columns := [LTime (date 2023 12 31); LTime (date 2023 12 31)];
     index := [LStr "Revenue"];
     values := [[PInt 1000000]; [PInt 900000]] |}.

(** Two days of prices with open and close. *)
Definition prices : DataFrame :=
  {| columns := [LStr "Open"; LStr "Close"; LStr "Volume"];
     index := [LTime (date 2023 1 1); LTime (date 2023 1 2)];
     values := [[float_1; float_10]; [float_10; float_11];
                [PInt 100; PInt 200]] |}.

Definition no_prices : DataFrame :=
  {| columns := [LStr "Open"; LStr "Close"; LStr "Volume"];
     index := [];
     values := [[]; []; []] |}.

(** The ticker ["ABC.X"] of the end-to-end scenario. *)
Definition abc : Ticker :=
  {| get_info := Ok (Some {[ "longName" := PStr "ABC Corp" ]});
     history := fun _ _ _ => Ok prices;
     income_stmt := Ok (Some income);
     balance_sheet := Ok None;
     cashflow := Ok (Some {| columns := []; index := []; values := [] |}) |}.

(** A ticker the provider knows nothing about. *)
Definition unknown : Ticker :=
  {| get_info := Raise (ProviderError "404");
     history := fun _ _ _ => Ok no_prices;
     income_stmt := Ok None;
     balance_sheet := Ok None;
     cashflow := Ok None |}.

(** A ticker for which the price request itself fails. *)
Definition unreachable : Ticker :=
  {| get_info := Raise (ProviderError "timeout");
     history := fun _ _ _ => Raise (ProviderError "timeout");
     income_stmt := Ok None;
     balance_sheet := Ok None;
     cashflow := Ok None |}.

Definition provider (tkr : string) : Ticker :=
  if String.eqb tkr "ABC.X" then abc
  else if String.eqb tkr "DOWN.X" then unreachable
  else unknown.

(** A two-column statement view as [latest_col] builds it. *)
Definition view : DataFrame :=
  {| columns := [LStr "Item"; LStr "Value"];
     index := [LInt 0; LInt 1];
     values := [[PStr "Revenue"; PStr "Currency"];
                [PInt 1000000; PStr "USD"]] |}.

(** A pipeline that returns how often it has been invoked before. *)
Definition counting (_ : string) (w : nat) : nat * nat := (w, S w).

Definition cache_empty : Cache.state nat nat :=
  {| Cache.entries := ∅; Cache.world := 0%nat; Cache.invoked := [] |}.

Definition cache_abc : Cache.state nat nat :=
  {| Cache.entries := {[ "ABC.X"%string := (0%nat, 100%Z) ]};
     Cache.world := 1%nat;
     Cache.invoked := ["ABC.X"%string] |}.

End Sample.

(** ** The page: the script around [load_data] and [format_commas] *)

Module Page.
Import Py Pandas App.

(** What the script hands to Streamlit, in call order.  The layout
    containers ([st.columns], [with ...:]) and the spinner leave no entry. *)
Inductive widget :=
  | StPageConfig (page_title layout : string)
  | StTitle (body : string)
  | StTextInput (label value : string)
  | StSubheader (body : string)
  | StCaption (body : string)
  | StError (body : string)
  | StMetric (label value help : string)
  | StLineChart (index : list Py.label) (data : list (list pyval))
  | StDownloadButton (label data file_name mime : string)
  | StMarkdown (body : string)
  | StInfo (body : string)
  | StDataframe (data : option DataFrame) (use_container_width : bool).

(** How a run of the script can end early: an exception of the modelled
    Python calls, or one of the two the page's own lookups can raise. *)
Inductive crash :=
  | PyExn (e : exn)
  | AttributeError
  | IndexError.

Inductive outcome (A : Type) :=
  | Done (a : A)
  | Crashed (c : crash).
Arguments Done {A} a.
Arguments Crashed {A} c.

(** A step of the script: it reads and writes the object store, hands
    widgets to Streamlit and ends with a value or an uncaught exception. *)
Definition ui (A : Type) : Type := heap -> list widget * heap * outcome A.

#[export] Instance ui_ret : MRet ui := fun A a h => ([], h, Done a).

#[export] Instance ui_bind : MBind ui := fun A B k c h =>
  match c h with
  | (ws, h1, Done a) =>
      let '(ws', h2, o) := k a h1 in (ws ++ ws', h2, o)
  | (ws, h1, Crashed e) => (ws, h1, Crashed e)
  end.

Definition emit (w : widget) : ui unit := fun h => ([w], h, Done tt).

Definition raise {A} (c : crash) : ui A := fun h => ([], h, Crashed c).

Definition lift {A} (r : result A) : ui A :=
  match r with
  | Ok a => mret a
  | Raise e => raise (PyExn e)
  end.

(** A frame of the dictionary as an object in the store. *)
Definition object_of (d : DataFrame) : ui ref := fun h =>
  let l := fresh (dom h) in ([], <[l := d]> h, Done l).

(** The frame a reference points to. *)
Definition read (l : option ref) : ui (option DataFrame) := fun h =>
  ([], h, Done (l ≫= fun l => h !! l)).

Definition call_format_commas (df : option ref) : ui (option ref) := fun h =>
  match format_commas df h with
  | (Ok r, h') => ([], h', Done r)
  | (Raise e, h') => ([], h', Crashed (PyExn e))
  end.

(** [s.upper()], on ASCII text. *)
Definition upper_char (c : ascii) : ascii :=
  let n := nat_of_ascii c in
  if (97 <=? n)%nat && (n <=? 122)%nat then ascii_of_nat (n - 32) else c.

Definition upper (s : string) : string :=
  string_of_list_ascii (map upper_char (list_ascii_of_string s)).

(** [s.strip()] *)
Definition strip (s : string) : string :=
  string_of_list_ascii (Py.strip (list_ascii_of_string s)).

Definition newline : string := String "010" "".

(** [f"{v:,.2f}"] for a float: the nearest multiple of one hundredth, ties
    to even, with thousands separators before the point. *)
Definition format_comma_2f (v : spec_float) : string :=
  match v with
  | S754_nan => "nan"
  | S754_infinity s => signed s (list_ascii_of_string "inf")
  | S754_zero s =>
      signed s (group3 (digits 0) ++ "."%char :: zero_pad 2 0)
  | S754_finite s m e =>
      let n := round_half_even (m * 100) e in
      signed s (group3 (digits (n / 100))
                ++ "."%char :: zero_pad 2 (Z.of_N (n mod 100)))
  end.

(** One element of a selection: a cell, or a whole row when the selection
    was a frame. *)
Inductive element :=
  | Cell (x : pyval)
  | Row (xs : list pyval).

(** [df[key]] with a single label: the column when one carries the label,
    a frame when several do, [KeyError] when none does. *)
Inductive selection :=
  | Series (cells : list pyval)
  | Frame (cols : list (list pyval)).

Definition getitem (df : DataFrame) (key : Py.label) : result selection :=
  match labelled key (columns df) (values df) with
  | [] => Raise KeyError
  | [(_, cells)] => Ok (Series cells)
  | cols => Ok (Frame (map snd cols))
  end.

(** [sel.iloc[-1]] *)
Definition iloc_last (sel : selection) : ui element :=
  match sel with
  | Series cells =>
      match last cells with
      | Some x => mret (Cell x)
      | None => raise IndexError
      end
  | Frame cols =>
      match mapM last cols with
      | Some xs => mret (Row xs)
      | None => raise IndexError
      end
  end.

(** What a line chart is given. *)
Definition chart_data (sel : selection) : list (list pyval) :=
  match sel with
  | Series cells => [cells]
  | Frame cols => cols
  end.

Section Script.

Variable yf_Ticker : string -> Ticker.
Variable to_datetime : string -> result (option Timestamp).

(** [DataFrame.to_csv(index=...)], kept abstract. *)
Variable to_csv : bool -> DataFrame -> string.

(** [format(x, ",.2f")] for a value that is no number, and [str(x)] for a
    value that is no string: both kept abstract. *)
Variable format_other : pyval -> result string.
Variable str_other : pyval -> string.

(** [f"{x:,.2f}"] *)
Definition format_2f (x : element) : result string :=
  match x with
  | Cell (PFloat v) => Ok (format_comma_2f v)
  | Cell (PInt z) => bind (float_of_int z) (fun v => Ok (format_comma_2f v))
  | Cell (PBool b) =>
      bind (float (PBool b)) (fun v => Ok (format_comma_2f v))
  | Cell x => format_other x
  | Row _ => Raise TypeError
  end.

(** [f"{x}"]: a string as it stands, [pd.NaT] by its name. *)
Definition text_of (x : pyval) : string :=
  match x with
  | PStr s => s
  | PNaT => "NaT"
  | _ => str_other x
  end.

(** [str(last_dt.date())]: only a timestamp has a [date]. *)
Definition date_text (l : Py.label) : ui string :=
  match l with
  | LTime t => mret (strftime_Ymd t)
  | _ => raise AttributeError
  end.

(** Lines 90-94: ticker and instrument name. *)
Definition header (ticker : string) (data : Data) : ui unit :=
  emit (StSubheader ("Ticker: **" ++ upper ticker ++ "**")) ;;
  shown ← lift (py_or (name data) (PStr "N/A"));
  emit (StCaption ("Instrument name: " ++ text_of shown)).

(** Lines 96-115: the price chart, or an error box when there are no
    prices. *)
Definition price_block (ticker : string) (data : Data) : ui unit :=
  let hist := hist data in
  if empty hist
  then emit (StError
               "No price history returned. Check the ticker or exchange suffix.")
  else
    last_dt ← match last (index hist) with
               | Some l => mret l
               | None => raise IndexError
               end;
    close ← lift (getitem hist (LStr "Close"));
    last_px ← iloc_last close;
    value ← lift (format_2f last_px);
    help ← date_text last_dt;
    emit (StMetric "Last Close (most recent obs.)" value help) ;;
    emit (StSubheader "5-Year Daily Close") ;;
    series ← lift (getitem hist (LStr "Close"));
    emit (StLineChart (index hist) (chart_data series)) ;;
    emit (StDownloadButton "Download 5y CSV" (to_csv true hist)
            (upper ticker ++ "_5y_daily_close.csv") "text/csv").

(** Lines 123-134, 136-147 and 149-160: one statement column.  The table
    shown goes through [format_commas]; the download is built afterwards
    from the dictionary's own frame. *)
Definition statement_block (heading period : string)
  (table : option DataFrame) (button file_name : string) : ui unit :=
  emit (StMarkdown ("**" ++ heading ++ "**  " ++ newline
                    ++ "_Period end: " ++ period ++ "_")) ;;
  match table with
  | None => emit (StInfo "Not available.")
  | Some d =>
      if empty d then emit (StInfo "Not available.")
      else
        l ← object_of d;
        out ← call_format_commas (Some l);
        shown ← read out;
        emit (StDataframe shown true) ;;
        raw ← read (Some l);
        match raw with
        | Some d' =>
            emit (StDownloadButton button (to_csv false d') file_name
                    "text/csv")
        | None => raise AttributeError
        end
  end.

(** The script, from the page set-up to the last statement column, for the
    text the ticker box returns. *)
Definition page (typed : string) : ui unit :=
  emit (StPageConfig "Price & Financials" "wide") ;;
  emit (StTitle "Price & Financials (Ticker-driven)") ;;
  emit (StTextInput "Ticker (use exchange suffix if needed, e.g., LSEG.L)"
          "LSEG.L") ;;
  let ticker := strip typed in
  if negb (String.eqb ticker "")
  then
    data ← lift (load_data yf_Ticker to_datetime ticker);
    header ticker data ;;
    price_block ticker data ;;
    emit (StMarkdown "---") ;;
    emit (StSubheader "Latest Annual Financial Statements") ;;
    statement_block "Income Statement" (inc_period data) (inc data)
      "Download Income Statement (latest year)"
      (upper ticker ++ "_income_statement_latest_year.csv") ;;
    statement_block "Statement of Financial Position (Balance Sheet)"
      (bal_period data) (bal data)
      "Download Balance Sheet (latest year)"
      (upper ticker ++ "_balance_sheet_latest_year.csv") ;;
    statement_block "Cash Flow Statement" (cf_period data) (cf data)
      "Download Cash Flow (latest year)"
      (upper ticker ++ "_cashflow_latest_year.csv")
  else emit (StInfo "Enter a ticker to load the chart and statements.").

End Script.

(** The download buttons among the widgets. *)
Definition is_download (w : widget) : bool :=
  match w with
  | StDownloadButton _ _ _ _ => true
  | _ => false
  end.

Definition downloads (ws : list widget) : nat :=
  length (List.filter is_download ws).

(** Prices the chart block can show: none at all, or one "Close" column
    whose last cell has a two-decimal text, over an index that ends in a
    timestamp. *)
Definition chartable (format_other : pyval -> result string)
  (hist : DataFrame) : Prop :=
  empty hist = true \/
  exists c cells x value t,
    labelled (LStr "Close") (columns hist) (values hist) = [(c, cells)] /\
    last cells = Some x /\
    format_2f format_other (Cell x) = Ok value /\
    last (index hist) = Some (LTime t).

(** Whether a statement column has a table to show: 1 or 0. *)
Definition available (t : option DataFrame) : nat :=
  match t with
  | Some d => if empty d then 0 else 1
  | None => 0
  end.

End Page.

(** ** Stand-ins for the abstract library calls, used in examples *)

Module Demo.
Import Py Pandas App.

(** The header line of a CSV file, standing in for [DataFrame.to_csv]. *)
Definition to_csv (idx : bool) (df : DataFrame) : string :=
  String.concat "," ((if idx then [""%string] else []) ++ map str (columns df)).

Definition format_other (x : pyval) : result string := Raise TypeError.

Definition str_other (x : pyval) : string := "?".

Definition page (typed : string) : Page.ui unit :=
  Page.page Sample.provider Sample.iso_to_datetime to_csv format_other
    str_other typed.

(** The dictionary [load_data] builds for the sample ticker ["ABC.X"]. *)
Definition abc_data : Data :=
  {| name := PStr "ABC Corp";
     hist := {| columns := [LStr "Close"];
                index := [LTime (Sample.date 2023 1 1);
                          LTime (Sample.date 2023 1 2)];
                values := [[Sample.float_10; Sample.float_11]] |};
     inc := Some {| columns := [LStr "Item"; LStr "Value"];
                    index := [LInt 0; LInt 1; LInt 2];
                    values := [[PStr "Revenue"; PStr "Currency";
                                PStr "Tax Rate"];
                               [PInt 1000000; PStr "USD";
                                Sample.float_nan]] |};
     inc_period := "2023-12-31";
     bal := None;
     bal_period := "N/A";
     cf := None;
     cf_period := "N/A" |}.

(** A price table that lost its closing prices. *)
Definition open_only : DataFrame :=
  {| columns := [LStr "Open"; LStr "Volume"];
     index := [LTime (Sample.date 2023 1 1)];
     values := [[Sample.float_10]; [PInt 100]] |}.

Definition no_close (tkr : string) : Ticker :=
  {| get_info := Ok None;
     history := fun _ _ _ => Ok open_only;
     income_stmt := Ok None;
     balance_sheet := Ok None;
     cashflow := Ok None |}.

(** Metadata with an empty long name and a short name. *)
Definition short_only (tkr : string) : Ticker :=
  {| get_info := Ok (Some {[ "longName" := PStr ""; "shortName" := PStr "ABC" ]});
     history := fun _ _ _ => Ok Sample.no_prices;
     income_stmt := Ok None;
     balance_sheet := Ok None;
     cashflow := Ok None |}.

End Demo.

(** ** Boolean checks that proofs run over finite ranges *)

Module Checks.
Import Py Pandas App.

(** Whether [fmt] returns the text of the integer [n], with sign [neg], as
    it stands. *)
Definition fmt_fixes (neg : bool) (n : N) : bool :=
  let text := signed neg (group3 (digits n)) in
  match fmt (PStr text) with
  | Ok (PStr t) => String.eqb t text
  | _ => false
  end.

(** What holds of every character that is a digit or a comma. *)
Definition plain_char (c : ascii) : bool :=
  implb (is_digit c || Ascii.eqb c ",")
        (negb (is_float_space c) && negb (Ascii.eqb c "_")
         && negb (Ascii.eqb c "-") && negb (Ascii.eqb c "+")
         && negb (Ascii.eqb c ".") && Ascii.eqb (lower c) c
         && negb (Ascii.eqb c "e") && negb (Ascii.eqb c "i")
         && negb (Ascii.eqb c "n")
         && (is_digit c || Ascii.eqb c ",")
         && negb (is_digit c && Ascii.eqb c ",")).

(** [n] is the integer nearest to [m * 2^e], and the even one when two
    integers are equally near. *)
Definition nearest_even (m : positive) (e : Z) (n : N) : Prop :=
  match e with
  | Zneg k =>
      (2 * Z.abs (Z.of_N n * 2 ^ Zpos k - Zpos m) <= 2 ^ Zpos k)%Z /\
      ((2 * Z.abs (Z.of_N n * 2 ^ Zpos k - Zpos m) = 2 ^ Zpos k)%Z ->
       Z.even (Z.of_N n) = true)
  | _ => Z.of_N n = (Zpos m * 2 ^ e)%Z
  end.

(** [text] writes the finite float [v] with no decimals: it is an integer
    with thousands separators, and without the separators it is the sign of
    [v] followed by digits, with no zero in front of another digit, whose
    value is the integer nearest to [v], ties to even. *)
Definition writes_rounded (v : spec_float) (text : string) : Prop :=
  is_comma_int text = true /\
  exists ds n,
    remove_commas (list_ascii_of_string text)
    = (if sign_bit v then ["-"%char] else []) ++ ds /\
    forallb is_digit ds = true /\
    (forall ds', ds = "0"%char :: ds' -> ds' = []) /\
    Z_of_digits ds = Z.of_N n /\
    match v with
    | S754_finite _ m e => nearest_even m e n
    | _ => n = 0%N
    end.

End Checks.

(** * Properties *)

Import Py Pandas App.

(** ** Digits and thousands separators *)

Section Digits.

Lemma chars_of_uint_digits (d : Decimal.uint) :
  forallb is_digit (chars_of_uint d) = true.
Proof. induction d; simpl; auto. Qed.

Lemma chars_of_uint_nonnil (d : Decimal.uint) :
  d <> Nil -> chars_of_uint d <> [].
Proof. destruct d; simpl; congruence. Qed.

Lemma digits_all_digit (n : N) : forallb is_digit (digits n) = true.
Proof. apply chars_of_uint_digits. Qed.

Lemma digits_nonempty (n : N) : digits n <> [].
Proof.
  unfold digits. apply chars_of_uint_nonnil.
  destruct n as [|p]; simpl; [discriminate|].
  apply DecimalPos.Unsigned.to_uint_nonnil.
Qed.

(** Reading the digits of a number gives the number back. *)
Lemma Z_of_digits_acc (d : Decimal.uint) (acc : positive) :
  fold_left (fun a c => 10 * a + digit_val c)%Z (chars_of_uint d) (Zpos acc)
  = Zpos (Pos.of_uint_acc d acc).
Proof.
  revert acc.
  induction d; intros acc; cbn [chars_of_uint fold_left Pos.of_uint_acc];
    [reflexivity|..];
    (etransitivity; [|apply IHd]); f_equal;
    match goal with
    | |- context [digit_val ?c] =>
        let v := eval vm_compute in (digit_val c) in
        change (digit_val c) with v
    end; lia.
Qed.

Lemma Z_of_digits_uint (d : Decimal.uint) :
  Z_of_digits (chars_of_uint d) = Z.of_N (Pos.of_uint d).
Proof.
  unfold Z_of_digits.
  induction d; cbn [chars_of_uint fold_left Pos.of_uint];
    [reflexivity|exact IHd|..]; apply (Z_of_digits_acc d).
Qed.

(** No zero stands in front of another digit. *)
Lemma digits_no_leading_zero (n : N) (ds : list ascii) :
  digits n = "0"%char :: ds -> ds = [].
Proof.
  destruct n as [|p]; [by intros [= <-]|].
  unfold digits. cbn [N.to_uint].
  pose proof (DecimalPos.Unsigned.to_of (Pos.to_uint p)) as Hn.
  rewrite DecimalPos.Unsigned.of_to in Hn. cbn [N.to_uint] in Hn.
  destruct (Pos.to_uint p) as [|u|u|u|u|u|u|u|u|u|u]; try discriminate.
  cbn [chars_of_uint]. intros [= <-].
  unfold unorm in Hn. cbn [nzhead] in Hn.
  pose proof (DecimalFacts.nzhead_nonzero u) as Hz.
  destruct (nzhead u) eqn:Eu; try discriminate.
  - by injection Hn as ->.
  - by destruct (Hz u0).
Qed.

Lemma Z_of_digits_digits (n : N) : Z_of_digits (digits n) = Z.of_N n.
Proof.
  unfold digits. rewrite Z_of_digits_uint.
  destruct n as [|p]; [reflexivity|].
  simpl N.to_uint. by rewrite DecimalPos.Unsigned.of_to.
Qed.
Lemma is_digit_not_comma (c : ascii) :
  is_digit c = true -> Ascii.eqb c "," = false.
Proof.
  intros H. destruct (Ascii.eqb_spec c ","%char) as [->|]; [|done].
  discriminate H.
Qed.

(** Grouping goes three digits at a time, so the induction does too. *)
Lemma group3_rev_ind (P : list ascii -> Prop) :
  P [] ->
  (forall a, P [a]) ->
  (forall a b, P [a; b]) ->
  (forall a b c, P [a; b; c]) ->
  (forall a b c d rest,
     P rest -> P (d :: rest) -> P (a :: b :: c :: d :: rest)) ->
  forall ds, P ds.
Proof.
  intros H0 H1 H2 H3 Hstep ds.
  remember (length ds) as n eqn:Hn.
  revert ds Hn. induction (lt_wf n) as [n _ IH].
  intros [|a [|b [|c [|d rest]]]] Hn; auto.
  simpl in Hn. apply Hstep; (eapply IH; [|reflexivity]); simpl; lia.
Qed.

Lemma groups_rev_group3_rev (ds : list ascii) :
  ds <> [] -> forallb is_digit ds = true ->
  groups_rev (group3_rev ds) = true.
Proof.
  induction ds as [|a|a b|a b c|a b c d rest IH' IH] using group3_rev_ind;
    intros Hne Hd.
  - congruence.
  - cbn in *. by destruct (is_digit a).
  - cbn in *. by destruct (is_digit a), (is_digit b).
  - cbn in *. by destruct (is_digit a), (is_digit b), (is_digit c).
  - change (group3_rev (a :: b :: c :: d :: rest))
      with (a :: b :: c :: ","%char :: group3_rev (d :: rest)).
    cbn [forallb] in Hd.
    apply andb_prop in Hd as [Ha Hd]. apply andb_prop in Hd as [Hb Hd].
    apply andb_prop in Hd as [Hc Hd].
    cbn [groups_rev]. rewrite Ha, Hb, Hc. simpl.
    apply IH; [done|exact Hd].
Qed.

Lemma remove_commas_group3_rev (ds : list ascii) :
  forallb is_digit ds = true ->
  remove_commas (group3_rev ds) = ds.
Proof.
  induction ds as [|a|a b|a b c|a b c d rest IH' IH] using group3_rev_ind;
    intros Hd; [done|..].
  all: cbn [forallb] in Hd.
  all: apply andb_prop in Hd as [Ha Hd]; pose proof (is_digit_not_comma _ Ha).
  2-4: apply andb_prop in Hd as [Hb Hd]; pose proof (is_digit_not_comma _ Hb).
  3-4: apply andb_prop in Hd as [Hc Hd]; pose proof (is_digit_not_comma _ Hc).
  1-3: unfold remove_commas; cbn [group3_rev List.filter];
       repeat match goal with E : Ascii.eqb _ _ = false |- _ =>
                rewrite E; clear E end; done.
  change (group3_rev (a :: b :: c :: d :: rest))
    with (a :: b :: c :: ","%char :: group3_rev (d :: rest)).
  unfold remove_commas in *. cbn [List.filter].
  repeat match goal with E : Ascii.eqb _ _ = false |- _ =>
           rewrite E; clear E end.
  cbn [negb]. rewrite Ascii.eqb_refl. cbn [negb].
  do 3 f_equal. by apply IH.
Qed.

Lemma forallb_rev {A} (f : A -> bool) (l : list A) :
  forallb f (rev l) = forallb f l.
Proof.
  induction l as [|x l IH]; [done|]. simpl.
  rewrite forallb_app, IH. simpl. rewrite andb_true_r. apply andb_comm.
Qed.

Lemma grouped_group3 (ds : list ascii) :
  ds <> [] -> forallb is_digit ds = true -> grouped (group3 ds) = true.
Proof.
  intros Hne Hd. unfold grouped, group3. rewrite rev_involutive.
  apply groups_rev_group3_rev.
  - intros E. apply Hne. by rewrite <- (rev_involutive ds), E.
  - by rewrite forallb_rev.
Qed.

Lemma remove_commas_group3 (ds : list ascii) :
  forallb is_digit ds = true -> remove_commas (group3 ds) = ds.
Proof.
  intros Hd. unfold group3, remove_commas.
  rewrite List.filter_rev. fold (remove_commas (group3_rev (rev ds))).
  rewrite remove_commas_group3_rev by (by rewrite forallb_rev).
  apply rev_involutive.
Qed.

(** Grouped text holds digits and commas only. *)
Lemma groups_rev_chars (cs : list ascii) :
  groups_rev cs = true ->
  forallb (fun c => is_digit c || Ascii.eqb c ",") cs = true.
Proof.
  induction cs as [|a|a b|a b c|a b c d rest IH' IH] using group3_rev_ind.
  - done.
  - cbn. by destruct (is_digit a).
  - cbn. by destruct (is_digit a), (is_digit b).
  - cbn. by destruct (is_digit a), (is_digit b), (is_digit c).
  - cbn [groups_rev forallb]. intros H.
    do 4 (apply andb_prop in H as [H ?]).
    rewrite H, H3, H2, H1, IH' by done. cbn [orb andb].
    by rewrite orb_true_r.
Qed.

Lemma grouped_head_not_minus (c : ascii) (cs : list ascii) :
  grouped (c :: cs) = true -> Ascii.eqb c "-" = false.
Proof.
  intros H%groups_rev_chars. rewrite forallb_rev in H.
  cbn [forallb] in H. apply andb_prop in H as [H _].
  destruct (Ascii.eqb_spec c "-"%char) as [->|]; [|done]. discriminate H.
Qed.

Lemma signed_is_comma_int (neg : bool) (body : list ascii) :
  grouped body = true -> is_comma_int (signed neg body) = true.
Proof.
  intros H. unfold is_comma_int, signed.
  rewrite list_ascii_of_string_of_list_ascii. destruct neg.
  - by rewrite Ascii.eqb_refl.
  - destruct body as [|c cs]; [discriminate H|].
    by rewrite (grouped_head_not_minus c cs H).
Qed.

(** A finite float prints as its sign and the grouped digits of the nearest
    integer. *)
Lemma format_finite (v : spec_float) :
  is_finite v = true ->
  format_comma_0f v
  = signed (sign_bit v) (group3 (digits (nearest_int v))).
Proof. by destruct v. Qed.

Lemma format_finite_is_comma_int (v : spec_float) :
  is_finite v = true -> is_comma_int (format_comma_0f v) = true.
Proof.
  intros H. rewrite format_finite by done.
  apply signed_is_comma_int, grouped_group3;
    [apply digits_nonempty | apply digits_all_digit].
Qed.

End Digits.

(** ** Rounding to binary64 never yields a NaN *)

Section Rounding.

Lemma shr_1_nonneg (mrs : shr_record) :
  (0 <= shr_m mrs)%Z -> (0 <= shr_m (shr_1 mrs))%Z.
Proof. destruct mrs as [[|[p|p|]|p] r s]; simpl; lia. Qed.

Lemma iter_shr_1_nonneg (p : positive) (mrs : shr_record) :
  (0 <= shr_m mrs)%Z -> (0 <= shr_m (SpecFloat.iter_pos shr_1 p mrs))%Z.
Proof.
  revert mrs. induction p as [p IH|p IH|]; intros mrs H; simpl.
  - by apply IH, IH, shr_1_nonneg.
  - by apply IH, IH.
  - by apply shr_1_nonneg.
Qed.

Lemma shr_fexp_nonneg (m e : Z) (l : location) :
  (0 <= m)%Z -> (0 <= shr_m (fst (shr_fexp prec emax m e l)))%Z.
Proof.
  intros H. unfold shr_fexp, shr.
  assert (0 <= shr_m (shr_record_of_loc m l))%Z
    by (destruct l as [|[]]; exact H).
  case_match; simpl; [done| |done]. by apply iter_shr_1_nonneg.
Qed.

Lemma round_nearest_even_nonneg (m : Z) (l : location) :
  (0 <= m)%Z -> (0 <= round_nearest_even m l)%Z.
Proof. destruct l as [|[]]; simpl; try case_match; lia. Qed.

Lemma binary_round_aux_not_nan (s : bool) (m e : Z) (l : location) :
  (0 <= m)%Z -> binary_round_aux prec emax s m e l <> S754_nan.
Proof.
  intros H. unfold binary_round_aux.
  pose proof (shr_fexp_nonneg m e l H) as H1.
  destruct (shr_fexp prec emax m e l) as [mrs' e'] eqn:E1. simpl in H1.
  pose proof (shr_fexp_nonneg _ e' loc_Exact
                (round_nearest_even_nonneg _ (loc_of_shr_record mrs') H1))
    as H2.
  destruct (shr_fexp prec emax (round_nearest_even _ _) e' loc_Exact)
    as [mrs'' e''] eqn:E2.
  simpl in H2. destruct (shr_m mrs''); [done| |lia]. by case_match.
Qed.

Lemma binary_normalize_not_nan (m e : Z) (s : bool) :
  binary_normalize prec emax m e s <> S754_nan.
Proof.
  destruct m as [|p|p]; simpl; [done|..]; unfold binary_round;
    destruct (shl_align _ _ _); by apply binary_round_aux_not_nan.
Qed.

(** [round_half_even] yields an integer no further than one half from
    [m * 2^e], and an even one when two integers are equally near. *)
Lemma round_half_even_exact (m : positive) (e : Z) :
  (0 <= e)%Z -> Z.of_N (round_half_even m e) = (Zpos m * 2 ^ e)%Z.
Proof.
  intros He. unfold round_half_even.
  destruct e as [|p|p]; [| |lia]; rewrite Z2N.id; lia.
Qed.

Lemma round_half_even_nearest (m k : positive) :
  let n := Z.of_N (round_half_even m (Zneg k)) in
  (2 * Z.abs (n * 2 ^ Zpos k - Zpos m) <= 2 ^ Zpos k)%Z /\
  ((2 * Z.abs (n * 2 ^ Zpos k - Zpos m) = 2 ^ Zpos k)%Z ->
   Z.even n = true).
Proof.
  unfold round_half_even.
  set (d := (2 ^ Zpos k)%Z).
  assert (Hd : (0 < d)%Z) by (apply Z.pow_pos_nonneg; lia).
  pose proof (Z.div_mod (Zpos m) d ltac:(lia)) as Hdm.
  pose proof (Z.mod_pos_bound (Zpos m) d Hd) as Hr.
  assert (Hq : (0 <= Zpos m / d)%Z) by (apply Z.div_pos; lia).
  set (q := (Zpos m / d)%Z) in *. set (r := (Zpos m mod d)%Z) in *.
  destruct (Z.compare_spec (2 * r) d) as [E|E|E]; cbv zeta.
  - destruct (Z.even q) eqn:Ev; rewrite Z2N.id by lia.
    + split; [lia|]. done.
    + split; [lia|]. intros _. rewrite Z.even_add, Ev. reflexivity.
  - rewrite Z2N.id by lia. split; lia.
  - rewrite Z2N.id by lia. split; lia.
Qed.

(** [float] of an int, when it does not overflow, is a finite number. *)
Lemma float_of_int_finite (z : Z) (v : spec_float) :
  float_of_int z = Ok v -> is_finite v = true.
Proof.
  unfold float_of_int. pose proof (binary_normalize_not_nan z 0 false).
  destruct (binary_normalize prec emax z 0 false); intros [= <-]; done.
Qed.

End Rounding.

(** ** The value formatter [fmt] *)

Section Formatter.

Lemma fmt_missing (x : pyval) : isna x = true -> fmt x = Ok (PStr "").
Proof. intros H. unfold fmt. by rewrite H. Qed.

Lemma fmt_coerced (x : pyval) (v : spec_float) :
  isna x = false -> float x = Ok v ->
  fmt x = Ok (PStr (format_comma_0f v)).
Proof. intros H Hv. unfold fmt. by rewrite H, Hv. Qed.

Lemma fmt_as_is (x : pyval) (e : exn) :
  isna x = false -> float x = Raise e -> fmt x = Ok x.
Proof. intros H Hv. unfold fmt. by rewrite H, Hv. Qed.

(** [fmt] never raises: the handler catches whatever the body does. *)
Lemma fmt_returns (x : pyval) : exists y, fmt x = Ok y.
Proof.
  unfold fmt. destruct (isna x); [by eexists|].
  destruct (float x); simpl; by eexists.
Qed.

(** Without its separators the text of a finite float is the sign and the
    digits of the nearest integer: no decimal point, no decimals. *)
Lemma format_finite_digits (v : spec_float) :
  is_finite v = true ->
  remove_commas (list_ascii_of_string (format_comma_0f v))
  = (if sign_bit v then ["-"%char] else []) ++ digits (nearest_int v).
Proof.
  intros H. rewrite format_finite by done. unfold signed.
  rewrite list_ascii_of_string_of_list_ascii.
  pose proof (remove_commas_group3 _ (digits_all_digit (nearest_int v))) as E.
  destruct (sign_bit v); [|exact E].
  unfold remove_commas in *. cbn [List.filter]. simpl. by rewrite E.
Qed.

(** [round_half_even] meets its specification. *)
Lemma round_half_even_spec (m : positive) (e : Z) :
  Checks.nearest_even m e (round_half_even m e).
Proof.
  destruct e as [|p|k]; unfold Checks.nearest_even.
  - by apply round_half_even_exact.
  - by apply round_half_even_exact.
  - apply (round_half_even_nearest m k).
Qed.

(** The text of a finite float writes the integer nearest to it, ties to
    even. *)
Lemma format_writes_rounded (v : spec_float) :
  is_finite v = true -> Checks.writes_rounded v (format_comma_0f v).
Proof.
  intros Hf. split; [by apply format_finite_is_comma_int|].
  exists (digits (nearest_int v)), (nearest_int v).
  split; [by apply format_finite_digits|].
  split; [apply digits_all_digit|].
  split; [apply digits_no_leading_zero|].
  split; [apply Z_of_digits_digits|].
  destruct v as [| | |s m e]; try done. apply round_half_even_spec.
Qed.

(** What the text of a float that is not finite is. *)
Lemma format_not_finite (v : spec_float) :
  is_finite v = false ->
  format_comma_0f v = "inf"%string \/ format_comma_0f v = "-inf"%string
  \/ format_comma_0f v = "nan"%string.
Proof. destruct v as [|[]| |]; try discriminate; auto. Qed.

(** [float] strips the white space of [float_strip] only: a string that
    begins with the unit separator (character 31) is no number, and [fmt]
    returns it as it is. *)
Example float_of_str_separator :
  float_of_str (String (ascii_of_nat 31) "12") = Raise ValueError /\
  fmt (PStr (String (ascii_of_nat 31) "12"))
  = Ok (PStr (String (ascii_of_nat 31) "12")) /\
  float_of_str (String (ascii_of_nat 9) "12 ")
  = Ok (S754_finite false 6755399441055744 (-49)).
Proof. repeat split; vm_compute; reflexivity. Qed.

Example float_of_str_examples :
  float_of_str " 1_000.5e3 " = Ok (S754_finite false 8594229559296000 (-33))
  /\ float_of_str "-Infinity" = Ok (S754_infinity true)
  /\ float_of_str "1__0" = Raise ValueError
  /\ float_of_str "1,234" = Raise ValueError
  /\ float_of_str "" = Raise ValueError.
Proof. repeat split; vm_compute; reflexivity. Qed.

Example format_comma_0f_examples :
  map (fun s => match float_of_str s with
                | Ok v => format_comma_0f v
                | Raise _ => "ValueError"
                end)
      ["0.5"; "1.5"; "2.5"; "-0.4"; "999.5"; "1e23"; "1234567.89"]
  = ["0"; "2"; "2"; "-0"; "1,000"; "99,999,999,999,999,991,611,392";
     "1,234,568"]%string.
Proof. vm_compute. reflexivity. Qed.

(** C6. The value formatter maps the number 1234567 (as an int and as a
    float) to the text "1,234,567", maps the missing values [None], [pd.NA]
    and NaN to the empty text, and passes the currency code "USD" through
    unchanged. *)
Theorem fmt_examples :
  fmt (PInt 1234567) = Ok (PStr "1,234,567") /\
  fmt (PFloat (S754_finite false 5302424890179584 (-32)))
    = Ok (PStr "1,234,567") /\
  fmt PNone = Ok (PStr "") /\
  fmt PNA = Ok (PStr "") /\
  fmt (PFloat S754_nan) = Ok (PStr "") /\
  fmt (PStr "USD") = Ok (PStr "USD").
Proof. repeat split; vm_compute; reflexivity. Qed.

(** C10, as stated, fails: positive infinity is coercible to float
    ([float] returns it), yet it is rendered as the text "inf", which is no
    comma-separated integer; NaN is coercible too and is rendered as the
    empty text. *)
Lemma fmt_infinity_not_integer :
  float (PFloat (S754_infinity false)) = Ok (S754_infinity false) /\
  fmt (PFloat (S754_infinity false)) = Ok (PStr "inf") /\
  is_comma_int "inf" = false /\
  float (PFloat S754_nan) = Ok S754_nan /\
  fmt (PFloat S754_nan) = Ok (PStr "").
Proof. repeat split. Qed.

(** C10, amended.  A value that is not missing and that [float] coerces is
    rendered from the coerced float, never passed through: as a
    comma-separated integer when the float is finite, which it always is
    for ints and booleans, and as "inf", "-inf" or "nan" otherwise.  The
    integer is the nearest one, and of two equally near ones the even one:
    without its separators the text is the sign and the digits, with no
    zero in front, of that integer.  So "1234" becomes "1,234", [True]
    becomes "1", and 0.5, 1.5, 2.5 and -3.5 become "0", "2", "2" and
    "-4".  Only a value on which [float] raises comes back as it is. *)
Theorem fmt_coercible (x : pyval) (v : spec_float) :
  isna x = false -> float x = Ok v ->
  fmt x = Ok (PStr (format_comma_0f v)) /\
  (is_finite v = true ->
     is_comma_int (format_comma_0f v) = true /\
     remove_commas (list_ascii_of_string (format_comma_0f v))
     = (if sign_bit v then ["-"%char] else []) ++ digits (nearest_int v)) /\
  (forall s m k, v = S754_finite s m (Zneg k) ->
     (2 * Z.abs (Z.of_N (nearest_int v) * 2 ^ Zpos k - Zpos m)
      <= 2 ^ Zpos k)%Z) /\
  (forall s m k, v = S754_finite s m (Zneg k) ->
     (2 * Z.abs (Z.of_N (nearest_int v) * 2 ^ Zpos k - Zpos m)
      = 2 ^ Zpos k)%Z ->
     Z.even (Z.of_N (nearest_int v)) = true) /\
  (is_finite v = true -> Checks.writes_rounded v (format_comma_0f v)) /\
  (forall s m e, v = S754_finite s m e -> (0 <= e)%Z ->
     Z.of_N (nearest_int v) = (Zpos m * 2 ^ e)%Z) /\
  (is_finite v = false ->
     format_comma_0f v = "inf" \/ format_comma_0f v = "-inf"
     \/ format_comma_0f v = "nan") /\
  ((exists z, x = PInt z) \/ (exists b, x = PBool b) -> is_finite v = true) /\
  fmt (PStr "1234") = Ok (PStr "1,234") /\
  fmt (PBool true) = Ok (PStr "1") /\
  fmt (PBool false) = Ok (PStr "0") /\
  fmt (PStr "0.5") = Ok (PStr "0") /\
  fmt (PStr "1.5") = Ok (PStr "2") /\
  fmt (PStr "2.5") = Ok (PStr "2") /\
  fmt (PStr "-3.5") = Ok (PStr "-4") /\
  fmt (PStr "1234.5") = Ok (PStr "1,234") /\
  (forall y e, isna y = false -> float y = Raise e -> fmt y = Ok y).
Proof.
  intros Hna Hv. split; [by apply fmt_coerced|].
  split; [intros Hf; split;
          [by apply format_finite_is_comma_int
          |by apply format_finite_digits]|].
  split.
  { intros s m k ->. apply (round_half_even_nearest m k). }
  split.
  { intros s m k ->. apply (round_half_even_nearest m k). }
  split; [apply format_writes_rounded|].
  split.
  { intros s m e -> He. by apply round_half_even_exact. }
  split; [apply format_not_finite|].
  split.
  { intros [[z ->]|[b ->]].
    - by apply (float_of_int_finite z).
    - simpl in Hv. destruct b; by injection Hv as <-. }
  repeat split; try (vm_compute; reflexivity).
  intros y e. apply fmt_as_is.
Qed.

Lemma fmt_coercible_witness :
  fmt (PStr " 1_000.5e3 ") = Ok (PStr "1,000,500") /\
  is_comma_int "1,000,500" = true.
Proof.
  assert (Hna : isna (PStr " 1_000.5e3 ") = false) by reflexivity.
  assert (Hv : float (PStr " 1_000.5e3 ")
               = Ok (S754_finite false 8594229559296000 (-33)))
    by (vm_compute; reflexivity).
  destruct (fmt_coercible _ _ Hna Hv) as (H1 & H2 & _).
  split; [exact H1|]. exact (proj1 (H2 eq_refl)).
Defined.

(** C7, as stated, fails: the currency code "USD" is neither missing nor
    numeric ([float] raises on it), and it is rendered as itself, not as
    the empty text. *)
Lemma fmt_non_numeric_not_blank :
  isna (PStr "USD") = false /\
  float (PStr "USD") = Raise ValueError /\
  fmt (PStr "USD") = Ok (PStr "USD") /\
  fmt (PStr "USD") <> Ok (PStr "").
Proof. repeat split; try (vm_compute; reflexivity). vm_compute. discriminate. Qed.

End Formatter.

(** ** [format_commas] and the object store *)

Section FormatCommas.

Lemma series_apply_fmt (vs : list pyval) :
  exists ws, series_apply fmt vs = Ok ws /\
             Forall2 (fun x y => fmt x = Ok y) vs ws.
Proof.
  induction vs as [|v vs (ws & E & HF)]; [by exists []|].
  destruct (fmt_returns v) as [w Hw].
  exists (w :: ws). simpl. rewrite Hw, E. simpl. split; [done|].
  by constructor.
Qed.

Lemma replace_labelled_length key new ls (vs : list (list pyval)) :
  length (replace_labelled key new ls vs) = length vs.
Proof.
  revert vs. induction ls as [|l ls IH]; intros [|v vs]; simpl; auto.
Qed.

Lemma replace_labelled_other key new ls (vs : list (list pyval)) j c :
  ls !! j = Some c -> c <> key ->
  replace_labelled key new ls vs !! j = vs !! j.
Proof.
  revert vs j. induction ls as [|l ls IH]; intros [|v vs] [|j]; simpl;
    try done.
  - intros [= ->] Hne. by rewrite bool_decide_eq_false_2.
  - intros H Hne. by apply IH.
Qed.

(** Overwriting a column through [fmt] always succeeds and leaves the
    labels, the index and every other column as they were. *)
Lemma apply_to_column_fmt (d : DataFrame) (key : label) :
  exists d', apply_to_column d key fmt = Ok d' /\
    columns d' = columns d /\ index d' = index d /\
    length (values d') = length (values d) /\
    forall j c, columns d !! j = Some c -> c <> key ->
                values d' !! j = values d !! j.
Proof.
  unfold apply_to_column.
  destruct (labelled key (columns d) (values d)) as [|[c cells] [|]];
    try by (exists d).
  destruct (series_apply_fmt cells) as (new & -> & _). simpl.
  eexists. split; [done|]. simpl. repeat split.
  - apply replace_labelled_length.
  - intros j c' Hj Hne. by apply replace_labelled_other with c'.
Qed.

Lemma copy_fresh (l : ref) (h : heap) (d : DataFrame) :
  h !! l = Some d ->
  exists out, copy l h = Some (out, <[out := d]> h) /\ h !! out = None.
Proof.
  intros H. unfold copy. rewrite H. eexists. split; [done|].
  apply not_elem_of_dom, is_fresh.
Qed.

(** C9. [format_commas] never changes the frame it is given, nor any other
    object that existed before the call.  A frame with rows and columns is
    copied: the result is a new object, with the labels and the index of
    the argument and with every column not labelled "Value" (so "Item")
    equal to the argument's.  An empty frame is returned itself, the store
    untouched. *)
Theorem format_commas_frame (h : heap) (l : ref) (d : DataFrame) :
  h !! l = Some d ->
  exists out h' d',
    format_commas (Some l) h = (Ok (Some out), h') /\
    h' !! l = Some d /\
    (forall l0 d0, h !! l0 = Some d0 -> h' !! l0 = Some d0) /\
    h' !! out = Some d' /\
    columns d' = columns d /\
    index d' = index d /\
    length (values d') = length (values d) /\
    (forall j c, columns d !! j = Some c -> c <> LStr "Value" ->
                 values d' !! j = values d !! j) /\
    (empty d = false -> h !! out = None) /\
    (empty d = true -> out = l /\ h' = h).
Proof.
  intros Hl. unfold format_commas. rewrite Hl.
  destruct (empty d) eqn:He.
  { exists l, h, d. repeat split; auto; discriminate. }
  destruct (copy_fresh l h d Hl) as (out & -> & Hout).
  rewrite lookup_insert_eq.
  assert (Hkeep : forall (x : DataFrame) l0 d0,
             h !! l0 = Some d0 -> <[out := x]> h !! l0 = Some d0).
  { intros x l0 d0 H0. rewrite lookup_insert_ne; [done|]. congruence. }
  destruct (has_column d (LStr "Value")).
  - destruct (apply_to_column_fmt d (LStr "Value"))
      as (d' & -> & Hc & Hi & Hlen & Hoth).
    exists out, (<[out := d']> (<[out := d]> h)), d'.
    rewrite insert_insert_eq, lookup_insert_eq.
    repeat split; auto; discriminate.
  - exists out, (<[out := d]> h), d. rewrite lookup_insert_eq.
    repeat split; auto; discriminate.
Qed.

Lemma format_commas_frame_witness :
  exists out h',
    format_commas (Some 1%positive) {[ 1%positive := Sample.view ]}
      = (Ok (Some out), h') /\
    h' !! 1%positive = Some Sample.view.
Proof.
  destruct (format_commas_frame {[ 1%positive := Sample.view ]} 1%positive
              Sample.view)
    as (out & h' & d' & E & Hl & _).
  - apply lookup_singleton_eq.
  - exists out, h'. split; [exact E|exact Hl].
Defined.

(** C7, amended.  In a rendered statement table (the two-column table of
    [latest_col] passed through [format_commas]) the "Item" column is as
    it was and every cell of the "Value" column is the [fmt] of the
    original cell: the empty text for a missing value; for a value that
    [float] coerces, the text of the coerced float, which for a finite
    float is an integer with thousands separators and no decimals, the
    one nearest to the float and the even one of two equally near, and
    which is "inf", "-inf" or "nan" otherwise; and the value itself,
    unchanged, when it is not missing and [float] raises on it. *)
Theorem rendered_table_values (h : heap) (l : ref) (idx : list label)
  (items vals : list pyval) :
  h !! l = Some {| columns := [LStr "Item"; LStr "Value"];
                   index := idx;
                   values := [items; vals] |} ->
  idx <> [] ->
  exists out vals' h',
    format_commas (Some l) h = (Ok (Some out), h') /\
    h' !! out = Some {| columns := [LStr "Item"; LStr "Value"];
                        index := idx;
                        values := [items; vals'] |} /\
    Forall2 (fun x y =>
               fmt x = Ok y /\
               (isna x = true -> y = PStr "") /\
               (forall v, isna x = false -> float x = Ok v ->
                  y = PStr (format_comma_0f v) /\
                  (is_finite v = true ->
                     is_comma_int (format_comma_0f v) = true) /\
                  (is_finite v = true ->
                     Checks.writes_rounded v (format_comma_0f v)) /\
                  (is_finite v = false ->
                     y = PStr "inf" \/ y = PStr "-inf" \/ y = PStr "nan")) /\
               (forall e, isna x = false -> float x = Raise e -> y = x))
            vals vals'.
Proof.
  intros Hl Hidx. unfold format_commas. rewrite Hl.
  assert (He : empty {| columns := [LStr "Item"; LStr "Value"];
                        index := idx; values := [items; vals] |} = false)
    by (unfold empty; simpl; by destruct idx).
  rewrite He.
  destruct (copy_fresh l h _ Hl) as (out & -> & Hout).
  rewrite lookup_insert_eq.
  replace (has_column _ (LStr "Value")) with true by reflexivity.
  unfold apply_to_column. cbn [columns values index].
  replace (labelled (LStr "Value") [LStr "Item"; LStr "Value"] [items; vals])
    with [(LStr "Value", vals)] by reflexivity.
  destruct (series_apply_fmt vals) as (vals' & -> & HF). cbn [bind].
  exists out, vals', (<[out := {| columns := [LStr "Item"; LStr "Value"];
                                 index := idx;
                                 values := [items; vals'] |}]>
                       (<[out := {| columns := [LStr "Item"; LStr "Value"];
                                    index := idx;
                                    values := [items; vals] |}]> h)).
  split; [reflexivity|]. split; [apply lookup_insert_eq|].
  eapply Forall2_impl; [exact HF|]. intros x y Hxy. cbv beta in *.
  split; [exact Hxy|]. split; [|split].
  - intros Hna. rewrite (fmt_missing x Hna) in Hxy. congruence.
  - intros v Hna Hv. rewrite (fmt_coerced x v Hna Hv) in Hxy.
    split; [congruence|].
    split; [apply format_finite_is_comma_int|].
    split; [apply format_writes_rounded|].
    intros Hf. injection Hxy as <-.
    destruct (format_not_finite v Hf) as [->|[->| ->]]; auto.
  - intros e Hna Hv. rewrite (fmt_as_is x e Hna Hv) in Hxy. congruence.
Qed.

Lemma rendered_table_values_witness :
  exists out vals' h',
    format_commas (Some 1%positive) {[ 1%positive := Sample.view ]}
      = (Ok (Some out), h') /\
    h' !! out = Some {| columns := [LStr "Item"; LStr "Value"];
                        index := [LInt 0; LInt 1];
                        values := [[PStr "Revenue"; PStr "Currency"];
                                   vals'] |}.
Proof.
  destruct (rendered_table_values {[ 1%positive := Sample.view ]}
              1%positive [LInt 0; LInt 1] [PStr "Revenue"; PStr "Currency"]
              [PInt 1000000; PStr "USD"])
    as (out & vals' & h' & E & Hout & _).
  - apply lookup_singleton_eq.
  - discriminate.
  - exists out, vals', h'. split; [exact E|exact Hout].
Defined.

End FormatCommas.

(** ** Statement snapshots: [latest_col] *)

Section LatestCol.

Lemma labelled_absent key ls (vs : list (list pyval)) :
  key ∉ ls -> labelled key ls vs = [].
Proof.
  revert vs. induction ls as [|l ls IH]; intros [|v vs] H; simpl; try done.
  rewrite bool_decide_eq_false_2 by set_solver. apply IH. set_solver.
Qed.

Lemma labelled_all_key key ls (vs : list (list pyval)) :
  Forall (fun lv => lv.1 = key) (labelled key ls vs).
Proof.
  revert vs. induction ls as [|l ls IH]; intros [|v vs]; simpl;
    try by constructor.
  case_bool_decide; [constructor; [done|]|]; apply IH.
Qed.

(** A frame with rows and columns has a first column. *)
Lemma nonempty_first_column (df : DataFrame) :
  rectangular df -> empty df = false ->
  exists col ls cells vs,
    columns df = col :: ls /\ values df = cells :: vs /\
    length cells = length (index df) /\ index df <> [].
Proof.
  intros [Hlen Hall] He. unfold empty in He.
  apply orb_false_elim in He as [Hc Hi].
  destruct (columns df) as [|col ls] eqn:Ec; [discriminate|].
  destruct (values df) as [|cells vs] eqn:Ev; [discriminate|].
  exists col, ls, cells, vs. repeat split; try done.
  - by inversion Hall.
  - by destruct (index df).
Qed.

(** What [latest_col] builds from a single-column selection. *)
Lemma reset_and_rename (col : label) (idx : list label) (cells : list pyval) :
  bind (reset_index {| columns := [col]; index := idx; values := [cells] |})
       (fun out => set_columns out [LStr "Item"; LStr "Value"])
  = Ok {| columns := [LStr "Item"; LStr "Value"];
          index := range_index (length idx);
          values := [map val_of_label idx; cells] |}.
Proof.
  unfold reset_index, has_column. cbn [columns index values].
  destruct (decide (col = LStr "index")) as [->|Hne].
  - reflexivity.
  - rewrite (bool_decide_eq_false_2 (LStr "index" ∈ [col]))
      by (rewrite list_elem_of_singleton; congruence).
    rewrite (bool_decide_eq_false_2 (LStr "index" ∈ [col]))
      by (rewrite list_elem_of_singleton; congruence).
    reflexivity.
Qed.

(** The table [latest_col] builds from a frame whose first label is not
    repeated. *)
Lemma latest_col_built (df : DataFrame) (col : label) (ls : list label)
  (cells : list pyval) (vs : list (list pyval)) :
  empty df = false ->
  columns df = col :: ls -> values df = cells :: vs -> col ∉ ls ->
  latest_col (Some df)
  = Ok (Some {| columns := [LStr "Item"; LStr "Value"];
                index := range_index (length (index df));
                values := [map val_of_label (index df); cells] |},
        col).
Proof.
  intros He Ec Ev Hcol.
  unfold latest_col. rewrite He. unfold first_column, getitem_list.
  rewrite Ec, Ev. cbn [hd forallb flat_map].
  replace (has_column df col) with true
    by (symmetry; apply bool_decide_eq_true_2; rewrite Ec; set_solver).
  cbn [andb labelled]. rewrite bool_decide_eq_true_2 by done.
  rewrite (labelled_absent col ls vs Hcol). cbn [app map fst snd bind].
  pose proof (reset_and_rename col (index df) cells) as Hr.
  destruct (reset_index _) as [o|e]; [|discriminate Hr].
  cbn [bind] in Hr |- *. by rewrite Hr.
Qed.

(** C3. For every statement table with rows and columns, [latest_col]
    returns the first column's label and a two-column table whose rows are
    the (line-item name, value) pairs of the first column only: as many
    rows as the input has, in the input's row order, each value taken from
    the first column. *)
Theorem latest_col_rows (df : DataFrame) :
  statement_table df -> empty df = false ->
  exists col cells out,
    columns df !! 0%nat = Some col /\
    values df !! 0%nat = Some cells /\
    latest_col (Some df) = Ok (Some out, col) /\
    out = {| columns := [LStr "Item"; LStr "Value"];
             index := range_index (length (index df));
             values := [map val_of_label (index df); cells] |} /\
    rows (Some out) = zip (map val_of_label (index df)) cells /\
    length (rows (Some out)) = length (index df) /\
    (forall i item, index df !! i = Some item ->
       exists v, cells !! i = Some v /\
                 rows (Some out) !! i = Some (val_of_label item, v)).
Proof.
  intros [Hrect Hnd] He.
  destruct (nonempty_first_column df Hrect He)
    as (col & ls & cells & vs & Ec & Ev & Hlen & Hidx).
  exists col, cells. eexists.
  assert (Hcol : col ∉ ls) by (rewrite Ec in Hnd; by inversion Hnd).
  split; [by rewrite Ec|]. split; [by rewrite Ev|].
  split; [exact (latest_col_built df col ls cells vs He Ec Ev Hcol)|].
  split; [reflexivity|].
  cbn [rows values]. split; [reflexivity|]. split.
  - rewrite length_zip, length_map. lia.
  - intros i item Hi.
    destruct (lookup_lt_is_Some_2 cells i) as [v Hv].
    { rewrite Hlen. by eapply lookup_lt_Some. }
    exists v. split; [done|].
    apply lookup_zip_with_Some. exists (val_of_label item), v.
    split; [done|]. split; [|done]. by rewrite list_lookup_fmap, Hi.
Qed.

(** With the first period label repeated, [df[[col]]] selects two columns
    and the renaming to two names raises. *)
Example latest_col_repeated_label :
  latest_col (Some Sample.income_repeated) = Raise ValueError.
Proof. reflexivity. Qed.

Lemma latest_col_rows_witness :
  exists out,
    latest_col (Some Sample.income)
      = Ok (Some out, LTime (Sample.date 2023 12 31)) /\
    rows (Some out)
      = [(PStr "Revenue", PInt 1000000); (PStr "Currency", PStr "USD");
         (PStr "Tax Rate", Sample.float_nan)].
Proof.
  assert (Ht : statement_table Sample.income).
  { split; [split; [reflexivity|]|].
    - repeat constructor.
    - apply NoDup_cons. split; [|apply NoDup_singleton].
      rewrite list_elem_of_singleton. discriminate. }
  destruct (latest_col_rows Sample.income Ht eq_refl)
    as (col & cells & out & Hc & Hv & E & Hout & Hrows & _).
  injection Hc as <-. injection Hv as <-.
  exists out. split; [exact E|exact Hrows].
Defined.

End LatestCol.

(** ** Period labels: [pretty_period] *)

Section PrettyPeriod.

Variable to_datetime : string -> result (option Timestamp).


Lemma zero_pad_2 (z : Z) :
  (0 <= z <= 99)%Z ->
  exists a b, zero_pad 2 z = [a; b] /\ forallb is_digit [a; b] = true.
Proof.
  intros Hz.
  assert (Hall : forallb (pad_ok 2) (seq 0 100) = true)
    by (vm_compute; reflexivity).
  rewrite forallb_forall in Hall.
  specialize (Hall (Z.to_nat z)).
  unfold pad_ok in Hall. rewrite Z2Nat.id in Hall by lia.
  apply andb_prop in Hall as [Hlen Hd]; [|apply in_seq; lia].
  apply Nat.eqb_eq in Hlen.
  destruct (zero_pad 2 z) as [|a [|b [|? ?]]]; try discriminate.
  by exists a, b.
Qed.





Lemma pretty_period_returns (col : label) :
  exists s, pretty_period to_datetime col = Ok s.
Proof.
  destruct col; simpl; try by eexists.
  all: destruct (to_datetime _) as [[d|]|e]; simpl; by eexists.
Qed.


(** An absent or empty statement table gives no table and no column. *)
Lemma latest_col_no_rows (t : option DataFrame) :
  no_rows t -> latest_col t = Ok (None, LNone).
Proof.
  destruct t as [df|]; [|done]. simpl. intros H.
  unfold empty. rewrite H. simpl. by rewrite orb_true_r.
Qed.

End PrettyPeriod.


(** ** The pipeline: [load_data] *)

Section LoadData.

Variable yf_Ticker : string -> Ticker.
Variable to_datetime : string -> result (option Timestamp).

Abbreviation load_data := (load_data yf_Ticker to_datetime).
Abbreviation pretty_period := (pretty_period to_datetime).

(** The metadata block never raises. *)
Lemma meta_name_returns (t : Ticker) : exists n, meta_name t = Ok n.
Proof.
  unfold meta_name. destruct (bind _ _); simpl; by eexists.
Qed.

Lemma meta_name_failure (t : Ticker) (e : exn) :
  get_info t = Raise e -> meta_name t = Ok PNone.
Proof. intros E. unfold meta_name. by rewrite E. Qed.

Lemma meta_name_nothing (t : Ticker) :
  get_info t = Ok None \/ get_info t = Ok (Some ∅) ->
  meta_name t = Ok PNone.
Proof. intros [E|E]; unfold meta_name; by rewrite E. Qed.

Lemma close_only_empty (h : DataFrame) :
  empty h = true -> close_only h = Ok h.
Proof. intros E. unfold close_only. by rewrite E. Qed.

Lemma close_only_rows (h : DataFrame) :
  empty h = false -> LStr "Close" ∈ columns h ->
  close_only h
  = Ok {| columns := map fst (labelled (LStr "Close") (columns h) (values h));
          index := index h;
          values := map snd (labelled (LStr "Close") (columns h) (values h)) |}.
Proof.
  intros E Hin. unfold close_only, getitem_list. rewrite E.
  cbn [negb forallb flat_map]. unfold has_column.
  rewrite bool_decide_eq_true_2 by done. cbn [andb].
  by rewrite app_nil_r.
Qed.

Lemma close_only_returns (h : DataFrame) :
  price_table h -> exists h', close_only h = Ok h'.
Proof.
  intros Hp. destruct (empty h) eqn:E.
  - rewrite close_only_empty by done. by eexists.
  - rewrite close_only_rows by (done || exact (proj2 (Hp E))). by eexists.
Qed.

Lemma latest_col_returns (t : option DataFrame) :
  statement_ok t -> exists out col, latest_col t = Ok (out, col).
Proof.
  intros Hok. destruct t as [df|]; [|by exists None, LNone].
  destruct (empty df) eqn:E.
  - exists None, LNone. simpl. by rewrite E.
  - destruct (Hok df eq_refl E) as [Hrect Hnd].
    destruct (nonempty_first_column df Hrect E)
      as (col & ls & cells & vs & Ec & Ev & _).
    eexists _, col. apply (latest_col_built df col ls cells vs E Ec Ev).
    rewrite Ec in Hnd. by inversion Hnd.
Qed.

(** What a returned dictionary says about the run that built it. *)
Lemma load_data_inv (tkr : string) (r : Data) :
  load_data tkr = Ok r ->
  exists h i b c ic bc cc,
    meta_name (yf_Ticker tkr) = Ok (name r) /\
    history (yf_Ticker tkr) "5y" "1d" true = Ok h /\
    close_only h = Ok (hist r) /\
    income_stmt (yf_Ticker tkr) = Ok i /\
    balance_sheet (yf_Ticker tkr) = Ok b /\
    cashflow (yf_Ticker tkr) = Ok c /\
    latest_col i = Ok (inc r, ic) /\
    latest_col b = Ok (bal r, bc) /\
    latest_col c = Ok (cf r, cc) /\
    pretty_period ic = Ok (inc_period r) /\
    pretty_period bc = Ok (bal_period r) /\
    pretty_period cc = Ok (cf_period r).
Proof.
  unfold App.load_data.
  destruct (meta_name _) as [n|] eqn:En; [|discriminate].
  destruct (history _ _ _ _) as [h|] eqn:Eh; [|discriminate].
  cbn [bind]. destruct (close_only h) as [h'|] eqn:Ec; [|discriminate].
  destruct (income_stmt _) as [i|] eqn:Ei; [|discriminate].
  destruct (balance_sheet _) as [b|] eqn:Eb; [|discriminate].
  destruct (cashflow _) as [c|] eqn:Ecf; [|discriminate].
  cbn [bind].
  destruct (latest_col i) as [[il ic]|] eqn:Eli; [|discriminate].
  destruct (latest_col b) as [[bl bc]|] eqn:Elb; [|discriminate].
  destruct (latest_col c) as [[cl cc]|] eqn:Elc; [|discriminate].
  cbn [bind].
  destruct (App.pretty_period _ ic) as [ip|] eqn:Epi; [|discriminate].
  destruct (App.pretty_period _ bc) as [bp|] eqn:Epb; [|discriminate].
  destruct (App.pretty_period _ cc) as [cp|] eqn:Epc; [|discriminate].
  cbn [bind]. intros [= <-]. cbn.
  by exists h, i, b, c, ic, bc, cc.
Qed.

(** The pipeline returns once the price request and the three statement
    accessors have returned well-formed tables. *)
Lemma load_data_returns (tkr : string) (h : DataFrame)
  (i b c : option DataFrame) :
  history (yf_Ticker tkr) "5y" "1d" true = Ok h ->
  income_stmt (yf_Ticker tkr) = Ok i ->
  balance_sheet (yf_Ticker tkr) = Ok b ->
  cashflow (yf_Ticker tkr) = Ok c ->
  price_table h -> statement_ok i -> statement_ok b -> statement_ok c ->
  exists r, load_data tkr = Ok r.
Proof.
  intros Eh Ei Eb Ec Hp Hi Hb Hc. unfold App.load_data.
  destruct (meta_name_returns (yf_Ticker tkr)) as [n ->].
  rewrite Eh. cbn [bind].
  destruct (close_only_returns h Hp) as [h' ->].
  rewrite Ei, Eb, Ec. cbn [bind].
  destruct (latest_col_returns i Hi) as (il & ic & ->).
  destruct (latest_col_returns b Hb) as (bl & bc & ->).
  destruct (latest_col_returns c Hc) as (cl & cc & ->).
  cbn [bind].
  destruct (pretty_period_returns to_datetime ic) as [ip ->].
  destruct (pretty_period_returns to_datetime bc) as [bp ->].
  destruct (pretty_period_returns to_datetime cc) as [cp ->].
  cbn [bind]. by eexists.
Qed.

(** An exception of the price request reaches the caller. *)
Lemma load_data_history_raise (tkr : string) (e : exn) :
  history (yf_Ticker tkr) "5y" "1d" true = Raise e ->
  load_data tkr = Raise e.
Proof.
  intros E. unfold App.load_data.
  destruct (meta_name_returns (yf_Ticker tkr)) as [n ->].
  by rewrite E.
Qed.

Lemma labelled_nonempty key ls (vs : list (list pyval)) :
  key ∈ ls -> length vs = length ls -> labelled key ls vs <> [].
Proof.
  revert vs. induction ls as [|l ls IH]; intros vs Hin Hlen.
  - by apply elem_of_nil in Hin.
  - destruct vs as [|v vs]; [discriminate|]. simpl in *.
    case_bool_decide; [done|]. apply IH; [|lia].
    apply elem_of_cons in Hin as [->|]; done.
Qed.

Lemma labelled_unique key ls (vs : list (list pyval)) j cells :
  NoDup ls -> ls !! j = Some key -> vs !! j = Some cells ->
  labelled key ls vs = [(key, cells)].
Proof.
  revert vs j. induction ls as [|l ls IH]; intros [|v vs] [|j] Hnd;
    simpl; try done.
  - intros [= ->] [= ->]. rewrite bool_decide_eq_true_2 by done.
    rewrite labelled_absent; [done|]. by inversion Hnd.
  - intros Hl Hv. inversion Hnd as [|? ? Hnot Hnd']; subst.
    rewrite bool_decide_eq_false_2.
    + by apply IH with j.
    + intros ->. apply Hnot. by eapply list_elem_of_lookup_2.
Qed.

(** C8. When the provider returns a price table without rows, the price
    block passes it on as it is, still empty, and does not raise.  When the
    table has rows, only columns labelled "Close" are kept, over the same
    index: with distinct column labels that is the one closing-price
    column, and every other column is dropped.  The [hist] field of the
    returned dictionary is that table. *)
Theorem price_series_close_only (tkr : string) (h : DataFrame) :
  history (yf_Ticker tkr) "5y" "1d" true = Ok h ->
  price_table h ->
  exists h',
    close_only h = Ok h' /\
    (empty h = true -> h' = h /\ empty h' = true) /\
    (empty h = false ->
       columns h' <> [] /\
       Forall (fun l => l = LStr "Close") (columns h') /\
       index h' = index h /\
       (forall j cells,
          NoDup (columns h) -> columns h !! j = Some (LStr "Close") ->
          values h !! j = Some cells ->
          h' = {| columns := [LStr "Close"];
                  index := index h;
                  values := [cells] |})) /\
    (forall r, load_data tkr = Ok r -> hist r = h') /\
    (forall i b c,
       income_stmt (yf_Ticker tkr) = Ok i ->
       balance_sheet (yf_Ticker tkr) = Ok b ->
       cashflow (yf_Ticker tkr) = Ok c ->
       statement_ok i -> statement_ok b -> statement_ok c ->
       exists r, load_data tkr = Ok r /\ hist r = h').
Proof.
  intros Eh Hp.
  destruct (close_only_returns h Hp) as [h' Ec]. exists h'.
  assert (Hinv : forall r, load_data tkr = Ok r -> hist r = h').
  { intros r (h0 & ? & ? & ? & ? & ? & ? & _ & Eh0 & Ec0 & _)%load_data_inv.
    congruence. }
  split; [done|]. split; [|split; [|split; [done|]]].
  - intros He. rewrite close_only_empty in Ec by done. by injection Ec as <-.
  - intros He. destruct (Hp He) as [[Hlen _] Hclose].
    rewrite close_only_rows in Ec by auto. injection Ec as <-.
    cbn [columns index values]. split; [|split; [|split; [done|]]].
    + intros E%fmap_nil_inv. by eapply labelled_nonempty, E; auto.
    + apply Forall_fmap. apply labelled_all_key.
    + intros j cells Hnd Hj Hv.
      by rewrite (labelled_unique _ _ _ j cells Hnd Hj Hv).
  - intros i b c Ei Eb Ecf Hi Hb Hc.
    destruct (load_data_returns tkr h i b c) as [r Er]; auto.
    exists r. split; [done|]. by apply Hinv.
Qed.

(** C4. A statement whose table is absent or has no rows gives a snapshot
    without rows and the period label "N/A", for each of the three
    statements of the returned dictionary; and [pretty_period] yields a
    label for every column identifier, so no period field is missing. *)
Theorem absent_statement_snapshot (t : option DataFrame) :
  no_rows t ->
  latest_col t = Ok (None, LNone) /\
  pretty_period LNone = Ok "N/A"%string /\
  (forall col, exists s, pretty_period col = Ok s) /\
  (forall tkr r, load_data tkr = Ok r ->
     (income_stmt (yf_Ticker tkr) = Ok t ->
        inc r = None /\ rows (inc r) = [] /\ inc_period r = "N/A"%string) /\
     (balance_sheet (yf_Ticker tkr) = Ok t ->
        bal r = None /\ rows (bal r) = [] /\ bal_period r = "N/A"%string) /\
     (cashflow (yf_Ticker tkr) = Ok t ->
        cf r = None /\ rows (cf r) = [] /\ cf_period r = "N/A"%string)).
Proof.
  intros Hno. pose proof (latest_col_no_rows t Hno) as Hl.
  split; [done|]. split; [done|].
  split; [apply pretty_period_returns|].
  intros tkr r
    (h & i & b & c & ic & bc & cc & _ & _ & _ & Ei & Eb & Ec
     & Eli & Elb & Elc & Epi & Epb & Epc)%load_data_inv.
  split; [|split]; intros E.
  - rewrite E in Ei. injection Ei as <-. rewrite Hl in Eli.
    injection Eli as <- <-. simpl in Epi. repeat split; congruence.
  - rewrite E in Eb. injection Eb as <-. rewrite Hl in Elb.
    injection Elb as <- <-. simpl in Epb. repeat split; congruence.
  - rewrite E in Ec. injection Ec as <-. rewrite Hl in Elc.
    injection Elc as <- <-. simpl in Epc. repeat split; congruence.
Qed.

(** C1, amended.  [load_data] returns, whatever the metadata lookup does,
    once the price request and the three statement accessors return (a
    price table with a "Close" column when it has rows, statement tables
    with one column per period).  A metadata lookup that raises, or that
    yields nothing, gives an absent name.  A price table without rows stays
    an empty price series.  A statement that is absent or without rows
    gives a snapshot without rows and the period label "N/A".  So for a
    ticker with no provider data at all every field is empty or absent. *)
Theorem load_data_degrades (tkr : string) (h : DataFrame)
  (i b c : option DataFrame) :
  history (yf_Ticker tkr) "5y" "1d" true = Ok h ->
  income_stmt (yf_Ticker tkr) = Ok i ->
  balance_sheet (yf_Ticker tkr) = Ok b ->
  cashflow (yf_Ticker tkr) = Ok c ->
  price_table h -> statement_ok i -> statement_ok b -> statement_ok c ->
  exists r,
    load_data tkr = Ok r /\
    (forall e, get_info (yf_Ticker tkr) = Raise e -> name r = PNone) /\
    (get_info (yf_Ticker tkr) = Ok None
     \/ get_info (yf_Ticker tkr) = Ok (Some ∅) -> name r = PNone) /\
    (index h = [] -> hist r = h /\ empty (hist r) = true) /\
    (no_rows i -> rows (inc r) = [] /\ inc_period r = "N/A"%string) /\
    (no_rows b -> rows (bal r) = [] /\ bal_period r = "N/A"%string) /\
    (no_rows c -> rows (cf r) = [] /\ cf_period r = "N/A"%string).
Proof.
  intros Eh Ei Eb Ec Hp Hi Hb Hc.
  destruct (load_data_returns tkr h i b c) as [r Er]; auto.
  exists r. split; [done|].
  pose proof (load_data_inv tkr r Er)
    as (h0 & i0 & b0 & c0 & ic & bc & cc & En & Eh0 & Eco & Ei0 & Eb0 & Ec0
        & Eli & Elb & Elc & Epi & Epb & Epc).
  assert (h0 = h) as -> by congruence.
  assert (i0 = i) as -> by congruence.
  assert (b0 = b) as -> by congruence.
  assert (c0 = c) as -> by congruence.
  split; [|split; [|split; [|split; [|split]]]].
  - intros e E. rewrite (meta_name_failure _ e E) in En. congruence.
  - intros E. rewrite (meta_name_nothing _ E) in En. congruence.
  - intros Hidx.
    assert (empty h = true) as He
      by (unfold empty; rewrite Hidx; simpl; by rewrite orb_true_r).
    rewrite close_only_empty in Eco by done. injection Eco as <-. done.
  - intros Hno. rewrite (latest_col_no_rows i Hno) in Eli.
    injection Eli as <- <-. simpl in Epi. split; [done|congruence].
  - intros Hno. rewrite (latest_col_no_rows b Hno) in Elb.
    injection Elb as <- <-. simpl in Epb. split; [done|congruence].
  - intros Hno. rewrite (latest_col_no_rows c Hno) in Elc.
    injection Elc as <- <-. simpl in Epc. split; [done|congruence].
Qed.

End LoadData.

(** ** The pipeline on the sample providers *)

Section Examples.

Lemma statement_ok_None : statement_ok None.
Proof. intros df [=]. Qed.

Lemma price_table_no_prices : price_table Sample.no_prices.
Proof. intros [=]. Qed.

Lemma price_table_prices : price_table Sample.prices.
Proof.
  intros _. split; [split; [reflexivity|repeat constructor]|].
  apply list_elem_of_In. simpl. auto.
Qed.

(** The end-to-end scenario: a named ticker with two days of prices and an
    income statement, no balance sheet and an empty cash-flow table. *)
Example load_data_abc :
  load_data Sample.provider Sample.iso_to_datetime "ABC.X"
  = Ok {| name := PStr "ABC Corp";
          hist := {| columns := [LStr "Close"];
                     index := [LTime (Sample.date 2023 1 1);
                               LTime (Sample.date 2023 1 2)];
                     values := [[Sample.float_10; Sample.float_11]] |};
          inc := Some {| columns := [LStr "Item"; LStr "Value"];
                         index := [LInt 0; LInt 1; LInt 2];
                         values := [[PStr "Revenue"; PStr "Currency";
                                     PStr "Tax Rate"];
                                    [PInt 1000000; PStr "USD";
                                     Sample.float_nan]] |};
          inc_period := "2023-12-31";
          bal := None;
          bal_period := "N/A";
          cf := None;
          cf_period := "N/A" |}.
Proof. reflexivity. Qed.

(** C1, as stated, fails: when the price request itself raises, the
    exception reaches the caller of [load_data]; only the metadata lookup
    is guarded. *)
Lemma load_data_price_failure_raises :
  get_info (Sample.provider "DOWN.X") = Raise (ProviderError "timeout") /\
  history (Sample.provider "DOWN.X") "5y" "1d" true
    = Raise (ProviderError "timeout") /\
  load_data Sample.provider Sample.iso_to_datetime "DOWN.X"
    = Raise (ProviderError "timeout").
Proof. repeat split. Qed.

Lemma load_data_degrades_witness :
  exists r,
    load_data Sample.provider Sample.iso_to_datetime "ZZZ" = Ok r /\
    name r = PNone /\
    empty (hist r) = true /\
    rows (inc r) = [] /\ inc_period r = "N/A"%string /\
    rows (bal r) = [] /\ bal_period r = "N/A"%string /\
    rows (cf r) = [] /\ cf_period r = "N/A"%string.
Proof.
  destruct (load_data_degrades Sample.provider Sample.iso_to_datetime "ZZZ"
              Sample.no_prices None None None
              eq_refl eq_refl eq_refl eq_refl price_table_no_prices
              statement_ok_None statement_ok_None statement_ok_None)
    as (r & Er & Hn & _ & Hh & Hi & Hb & Hc).
  exists r. split; [exact Er|].
  split; [exact (Hn (ProviderError "404") eq_refl)|].
  split; [exact (proj2 (Hh eq_refl))|].
  destruct (Hi I) as [? ?], (Hb I) as [? ?], (Hc I) as [? ?].
  repeat split; assumption.
Defined.

Lemma price_series_close_only_witness :
  exists r,
    load_data Sample.provider Sample.iso_to_datetime "ABC.X" = Ok r /\
    hist r = {| columns := [LStr "Close"];
                index := index Sample.prices;
                values := [[Sample.float_10; Sample.float_11]] |}.
Proof.
  destruct (price_series_close_only Sample.provider Sample.iso_to_datetime
              "ABC.X" Sample.prices eq_refl price_table_prices)
    as (h' & _ & _ & Hrows & _ & Hret).
  destruct (Hrows eq_refl) as (_ & _ & _ & Hone).
  assert (Hnd : NoDup (columns Sample.prices)).
  { apply (bool_decide_unpack _). vm_compute. exact I. }
  rewrite <- (Hone 1%nat [Sample.float_10; Sample.float_11] Hnd
                eq_refl eq_refl).
  destruct (Hret (Some Sample.income) None
              (Some {| columns := []; index := []; values := [] |})
              eq_refl eq_refl eq_refl) as (r & Er & Hr).
  - intros df [= <-] _. split; [split; [reflexivity|repeat constructor]|].
    apply NoDup_cons. split; [|apply NoDup_singleton].
    rewrite list_elem_of_singleton. discriminate.
  - apply statement_ok_None.
  - intros df [= <-] [=].
  - exists r. split; [exact Er|exact Hr].
Defined.

Lemma absent_statement_snapshot_witness :
  latest_col None = Ok (None, LNone) /\
  pretty_period Sample.iso_to_datetime LNone = Ok "N/A"%string.
Proof.
  destruct (absent_statement_snapshot Sample.provider Sample.iso_to_datetime
              None I) as (H1 & H2 & _).
  split; [exact H1|exact H2].
Defined.

End Examples.

(** ** The cache *)

Section CacheProperties.

Import Cache.

Context {R W : Type}.
Variable pipeline : string -> W -> R * W.

Lemma refetch_spec (ticker : string) (now : Z) (s : state R W) :
  exists r w,
    pipeline ticker (world s) = (r, w) /\
    refetch pipeline ticker now s
    = (r, {| entries := <[ticker := (r, now)]> (entries s);
             world := w;
             invoked := invoked s ++ [ticker] |}).
Proof.
  unfold refetch. destruct (pipeline ticker (world s)) as [r w].
  by exists r, w.
Qed.

(** A fresh entry answers the call: nothing is invoked, nothing changes. *)
Lemma get_or_fetch_hit (ticker : string) (now c : Z) (r : R)
  (s : state R W) :
  entries s !! ticker = Some (r, c) -> (now - c < TTL)%Z ->
  get_or_fetch pipeline ticker now s = (r, s).
Proof.
  intros E Hlt. unfold get_or_fetch. rewrite E.
  by rewrite (proj2 (Z.ltb_lt _ _) Hlt).
Qed.

(** A stale entry is recomputed. *)
Lemma get_or_fetch_stale (ticker : string) (now c : Z) (r : R)
  (s : state R W) :
  entries s !! ticker = Some (r, c) -> (TTL <= now - c)%Z ->
  get_or_fetch pipeline ticker now s = refetch pipeline ticker now s.
Proof.
  intros E Hle. unfold get_or_fetch. rewrite E.
  by rewrite (proj2 (Z.ltb_ge _ _) Hle).
Qed.

(** A call for one ticker leaves the entries of the others alone. *)
Lemma get_or_fetch_other (ticker other : string) (now : Z)
  (s : state R W) :
  other <> ticker ->
  entries (get_or_fetch pipeline ticker now s).2 !! other
  = entries s !! other.
Proof.
  intros Hne. unfold get_or_fetch.
  assert (Hre : entries (refetch pipeline ticker now s).2 !! other
                = entries s !! other).
  { destruct (refetch_spec ticker now s) as (r & w & _ & ->). simpl.
    by rewrite lookup_insert_ne. }
  destruct (entries s !! ticker) as [[r c]|]; [|done].
  by destruct (now - c <? TTL)%Z.
Qed.

(** C2. The time-to-live is one hour.  After any call at time [t1] the
    ticker has an entry holding the returned result, computed at [c] no
    more than one hour before; the call either found it (state unchanged)
    or invoked the pipeline once and stored its result at [t1].  A second
    call inside that entry's hour returns the identical result and leaves
    the state, so also the record of pipeline invocations, as it was.  A
    call after the hour invokes the pipeline exactly once more, stores the
    new result with the time of the call, and returns it. *)
Theorem cache_idempotence (ticker : string) (t1 : Z) (s s1 : state R W)
  (r1 : R) :
  get_or_fetch pipeline ticker t1 s = (r1, s1) ->
  TTL = (60 * 60)%Z /\
  exists c,
    entries s1 !! ticker = Some (r1, c) /\
    (t1 - c < TTL)%Z /\
    (s1 = s \/
     (c = t1 /\ pipeline ticker (world s) = (r1, world s1) /\
      invoked s1 = invoked s ++ [ticker])) /\
    (forall t2, (t2 - c < TTL)%Z ->
       get_or_fetch pipeline ticker t2 s1 = (r1, s1)) /\
    (forall t3, (TTL <= t3 - c)%Z ->
       exists r3 w3,
         pipeline ticker (world s1) = (r3, w3) /\
         get_or_fetch pipeline ticker t3 s1
         = (r3, {| entries := <[ticker := (r3, t3)]> (entries s1);
                   world := w3;
                   invoked := invoked s1 ++ [ticker] |})).
Proof.
  intros E. split; [reflexivity|].
  assert (Hafter : forall c,
            entries s1 !! ticker = Some (r1, c) ->
            (forall t2, (t2 - c < TTL)%Z ->
               get_or_fetch pipeline ticker t2 s1 = (r1, s1)) /\
            (forall t3, (TTL <= t3 - c)%Z ->
               exists r3 w3,
                 pipeline ticker (world s1) = (r3, w3) /\
                 get_or_fetch pipeline ticker t3 s1
                 = (r3, {| entries := <[ticker := (r3, t3)]> (entries s1);
                           world := w3;
                           invoked := invoked s1 ++ [ticker] |}))).
  { intros c Hc. split.
    - intros t2 Ht2. by apply get_or_fetch_hit with c.
    - intros t3 Ht3. rewrite (get_or_fetch_stale _ _ c r1) by done.
      apply refetch_spec. }
  assert (Hmiss : refetch pipeline ticker t1 s = (r1, s1) ->
            entries s1 !! ticker = Some (r1, t1) /\
            pipeline ticker (world s) = (r1, world s1) /\
            invoked s1 = invoked s ++ [ticker]).
  { destruct (refetch_spec ticker t1 s) as (r & w & Ep & ->).
    intros [= -> <-]. simpl. by rewrite lookup_insert_eq. }
  unfold get_or_fetch in E.
  destruct (entries s !! ticker) as [[r c]|] eqn:Ee.
  - destruct (t1 - c <? TTL)%Z eqn:Elt.
    + injection E as -> ->. apply Z.ltb_lt in Elt.
      exists c. split; [done|]. split; [done|]. split; [by left|].
      by apply Hafter.
    + destruct (Hmiss E) as (He1 & Hp & Hi).
      exists t1. split; [done|]. split; [unfold TTL; lia|].
      split; [by right|]. by apply Hafter.
  - destruct (Hmiss E) as (He1 & Hp & Hi).
    exists t1. split; [done|]. split; [unfold TTL; lia|].
    split; [by right|]. by apply Hafter.
Qed.

End CacheProperties.

Lemma cache_idempotence_witness :
  Cache.get_or_fetch Sample.counting "ABC.X" 100 Sample.cache_empty
    = (0%nat, Sample.cache_abc) /\
  Cache.get_or_fetch Sample.counting "ABC.X" 3699 Sample.cache_abc
    = (0%nat, Sample.cache_abc) /\
  exists s3,
    Cache.get_or_fetch Sample.counting "ABC.X" 3700 Sample.cache_abc
      = (1%nat, s3) /\
    Cache.invoked s3 = ["ABC.X"%string; "ABC.X"%string].
Proof.
  assert (E : Cache.get_or_fetch Sample.counting "ABC.X" 100
                Sample.cache_empty = (0%nat, Sample.cache_abc))
    by reflexivity.
  destruct (cache_idempotence Sample.counting "ABC.X" 100 Sample.cache_empty
              Sample.cache_abc 0%nat E)
    as (_ & c & Hc & _ & _ & Hin & Hout).
  assert (c = 100%Z) as ->.
  { change (Cache.entries Sample.cache_abc !! "ABC.X"%string)
      with (Some (0%nat, 100%Z)) in Hc. congruence. }
  split; [exact E|]. split.
  - apply Hin. reflexivity.
  - destruct (Hout 3700%Z) as (r3 & w3 & Hp & E3); [discriminate|].
    injection Hp as <- <-. eexists. split; [exact E3|reflexivity].
Defined.

(** * Further properties of the pipeline *)

Section Pipeline.

Variable yf_Ticker : string -> Ticker.
Variable to_datetime : string -> result (option Timestamp).

Abbreviation load_data := (load_data yf_Ticker to_datetime).
Abbreviation pretty_period := (pretty_period to_datetime).

(** X1. The instrument name is the long name when the metadata has a truthy
    one, and [pd.NaT] is truthy.  Otherwise it is whatever the short name
    is, taken as it stands and absent when missing; and when the long name
    has no truth value, as [pd.NA] has none, the name is absent. *)
Theorem meta_name_preference (t : Ticker) (d : gmap string pyval) :
  get_info t = Ok (Some d) ->
  (forall v, d !! "longName"%string = Some v -> truthy v = Ok true ->
     meta_name t = Ok v) /\
  (truthy (dict_get d "longName") = Ok false ->
     meta_name t = Ok (dict_get d "shortName")) /\
  (forall e, truthy (dict_get d "longName") = Raise e ->
     meta_name t = Ok PNone) /\
  (d !! "longName"%string = Some PNaT -> meta_name t = Ok PNaT) /\
  (d !! "longName"%string = Some PNA -> meta_name t = Ok PNone).
Proof.
  intros E. unfold meta_name, py_or. rewrite E. cbn [bind].
  change (or_empty_dict (Some d)) with d.
  split; [|split; [|split; [|split]]].
  - intros v Hv Ht.
    assert (dict_get d "longName" = v) as -> by (unfold dict_get; by rewrite Hv).
    by rewrite Ht.
  - intros Ht. by rewrite Ht.
  - intros e Ht. by rewrite Ht.
  - intros Hv. unfold dict_get at 1 2. by rewrite Hv.
  - intros Hv. unfold dict_get at 1. by rewrite Hv.
Qed.

Lemma meta_name_preference_witness :
  meta_name (Demo.short_only "ABC.X") = Ok (PStr "ABC") /\
  meta_name Sample.abc = Ok (PStr "ABC Corp").
Proof.
  split.
  - destruct (meta_name_preference (Demo.short_only "ABC.X") _ eq_refl)
      as (_ & H & _).
    exact (H eq_refl).
  - destruct (meta_name_preference Sample.abc _ eq_refl) as (H & _).
    exact (H (PStr "ABC Corp") eq_refl eq_refl).
Defined.

(** Selected cells are cells of the frame. *)
Lemma labelled_member key ls (vs : list (list pyval)) l v :
  (l, v) ∈ labelled key ls vs -> v ∈ vs.
Proof.
  revert vs. induction ls as [|l0 ls IH]; intros [|v0 vs];
    simpl; try (by intros ?%elem_of_nil).
  case_bool_decide.
  - intros [[= _ ->]|Hx]%elem_of_cons; [by left|]. right. by eapply IH.
  - intros Hx. right. by eapply IH.
Qed.

(** Selecting by a label from columns that all carry it keeps them all. *)
Lemma labelled_uniform key (p : list (label * list pyval)) :
  Forall (fun lv => lv.1 = key) p ->
  labelled key (map fst p) (map snd p) = p.
Proof.
  induction 1 as [|[l v] p Hl _ IH]; [done|]. simpl in *. subst l.
  rewrite bool_decide_eq_true_2 by done. by rewrite IH.
Qed.

Lemma reset_index_uniform (col : label) (cs idx : list label)
  (vs : list (list pyval)) :
  Forall (fun c => c = col) cs ->
  exists name,
    reset_index {| columns := cs; index := idx; values := vs |}
    = Ok {| columns := name :: cs;
            index := range_index (length idx);
            values := map val_of_label idx :: vs |}.
Proof.
  intros Hall. unfold reset_index, has_column. cbn [columns index values].
  destruct (decide (LStr "index" ∈ cs)) as [Hin|Hout].
  - rewrite (bool_decide_eq_true_2 _ Hin).
    assert (col = LStr "index") as ->
      by (rewrite Forall_forall in Hall; symmetry; by apply Hall).
    rewrite bool_decide_eq_false_2; [by eexists|].
    intros Hl. rewrite Forall_forall in Hall. by specialize (Hall _ Hl).
  - rewrite (bool_decide_eq_false_2 _ Hout).
    rewrite (bool_decide_eq_false_2 _ Hout). by eexists.
Qed.

(** What [latest_col] does with a frame that has rows and columns: it
    succeeds when exactly one column carries the first label. *)
Lemma latest_col_eval (df : DataFrame) :
  empty df = false ->
  latest_col (Some df)
  = match labelled (first_column df) (columns df) (values df) with
    | [(_, cells)] =>
        Ok (Some {| columns := [LStr "Item"; LStr "Value"];
                    index := range_index (length (index df));
                    values := [map val_of_label (index df); cells] |},
            first_column df)
    | _ => Raise ValueError
    end.
Proof.
  intros He. unfold latest_col. rewrite He. unfold getitem_list.
  cbn [forallb flat_map]. rewrite app_nil_r.
  assert (Hin : has_column df (first_column df) = true).
  { apply bool_decide_eq_true_2. unfold empty in He. unfold first_column.
    destruct (columns df); [discriminate|]. simpl. by left. }
  rewrite Hin. cbn [andb bind].
  set (picked := labelled (first_column df) (columns df) (values df)).
  destruct (reset_index_uniform (first_column df) (map fst picked)
              (index df) (map snd picked)) as [name ->].
  { apply Forall_fmap. apply labelled_all_key. }
  cbn [bind]. unfold set_columns. cbn [columns index values length].
  rewrite length_map.
  destruct picked as [|[c cells] [|? ?]]; reflexivity.
Qed.

(** X4. [latest_col] never returns an empty table.  It returns no table and
    no column exactly for an absent or empty frame; any table it returns
    has the two columns "Item" and "Value" over a fresh 0..n-1 index, one
    row per row of the frame, and comes with the frame's first column
    label; for a rectangular frame it is rectangular. *)
Theorem latest_col_shape (t out : option DataFrame) (col : label) :
  latest_col t = Ok (out, col) ->
  match out with
  | None =>
      col = LNone /\ (t = None \/ exists df, t = Some df /\ empty df = true)
  | Some o =>
      exists df cells,
        t = Some df /\ empty df = false /\ col = first_column df /\
        labelled col (columns df) (values df) = [(col, cells)] /\
        o = {| columns := [LStr "Item"; LStr "Value"];
               index := range_index (length (index df));
               values := [map val_of_label (index df); cells] |} /\
        empty o = false /\
        length (index o) = length (index df) /\
        (rectangular df -> rectangular o)
  end.
Proof.
  destruct t as [df|]; [|intros [= <- <-]; auto].
  destruct (empty df) eqn:He.
  { simpl. rewrite He. intros [= <- <-]. eauto. }
  rewrite latest_col_eval by done.
  pose proof (labelled_all_key (first_column df) (columns df) (values df))
    as Hkey.
  destruct (labelled _ _ _) as [|[c cells] [|? ?]] eqn:El; try discriminate.
  intros [= <- <-]. exists df, cells.
  inversion Hkey as [|? ? Hc _]; simpl in Hc; subst c.
  assert (Hn : index df <> []).
  { unfold empty in He. apply orb_false_elim in He as [_ He].
    by destruct (index df). }
  split; [done|]. split; [done|]. split; [done|]. split; [done|].
  split; [done|]. split; [|split].
  - unfold empty. cbn [columns index]. unfold range_index.
    rewrite length_map, length_seq. by destruct (index df).
  - cbn [index]. unfold range_index. by rewrite length_map, length_seq.
  - intros [Hlen Hall]. split; [done|]. cbn [values index].
    unfold range_index. rewrite length_map, length_seq.
    constructor; [by rewrite length_map|]. constructor; [|constructor].
    rewrite Forall_forall in Hall. apply Hall.
    eapply labelled_member. rewrite El. by left.
Qed.

Lemma latest_col_shape_witness :
  exists df cells,
    Some Sample.income = Some df /\ empty df = false /\
    labelled (LTime (Sample.date 2023 12 31)) (columns df) (values df)
    = [(LTime (Sample.date 2023 12 31), cells)].
Proof.
  pose proof (latest_col_shape (Some Sample.income) _ _ eq_refl)
    as (df & cells & H1 & H2 & _ & H3 & _).
  exists df, cells. split; [exact H1|]. split; [exact H2|exact H3].
Defined.

(** X5. On a frame with rows and columns, [latest_col] raises exactly when
    the first column label is carried by another column too, and what it
    raises is [ValueError]. *)
Theorem latest_col_raises_iff (df : DataFrame) (e : exn) :
  length (values df) = length (columns df) ->
  empty df = false ->
  latest_col (Some df) = Raise e <->
  e = ValueError /\ first_column df ∈ tail (columns df).
Proof.
  intros Hlen He. rewrite latest_col_eval by done.
  unfold empty in He. apply orb_false_elim in He as [Hc _].
  unfold first_column.
  destruct (columns df) as [|col ls] eqn:Ec; [discriminate|].
  destruct (values df) as [|cells vs] eqn:Ev; [discriminate|].
  cbn [hd tail labelled]. rewrite bool_decide_eq_true_2 by done.
  destruct (decide (col ∈ ls)) as [Hin|Hout].
  - pose proof (labelled_nonempty col ls vs Hin) as Hne.
    destruct (labelled col ls vs); [exfalso; apply Hne; [|done]|].
    + simpl in Hlen. lia.
    + split; [by intros [= <-]|]. by intros [-> _].
  - rewrite (labelled_absent col ls vs Hout).
    split; [discriminate|]. by intros [_ ?].
Qed.

Lemma latest_col_raises_iff_witness :
  latest_col (Some Sample.income_repeated) = Raise ValueError.
Proof.
  apply (latest_col_raises_iff Sample.income_repeated ValueError
           eq_refl eq_refl).
  split; [reflexivity|]. simpl. left.
Defined.

(** X6. The price block is idempotent: what it returns it returns again
    unchanged.  It keeps the index, and on a rectangular table the result
    is rectangular and has rows exactly when the input has. *)
Theorem close_only_idempotent (h h' : DataFrame) :
  close_only h = Ok h' ->
  close_only h' = Ok h' /\
  index h' = index h /\
  (rectangular h -> rectangular h' /\ empty h' = empty h).
Proof.
  intros E. destruct (empty h) eqn:He.
  { rewrite close_only_empty in E by done. injection E as <-.
    split; [by apply close_only_empty|]. split; [done|].
    intros Hr. by rewrite He. }
  unfold close_only, getitem_list in E. rewrite He in E.
  cbn [negb forallb flat_map] in E. rewrite app_nil_r in E.
  destruct (has_column h (LStr "Close")) eqn:Hc; [|discriminate].
  cbn [andb] in E. injection E as <-.
  set (picked := labelled (LStr "Close") (columns h) (values h)).
  pose proof (labelled_all_key (LStr "Close") (columns h) (values h))
    as Hkey. fold picked in Hkey.
  split; [|split; [done|]].
  - unfold close_only, getitem_list.
    match goal with
    | |- context [negb (empty ?x)] => destruct (empty x) eqn:He'
    end; [done|].
    cbn [negb forallb flat_map columns values index].
    rewrite app_nil_r, (labelled_uniform _ picked Hkey).
    replace (has_column _ _) with true; [done|].
    symmetry. apply bool_decide_eq_true_2. cbn [columns].
    unfold empty in He'. cbn [columns] in He'.
    destruct picked as [|[l v] p]; [discriminate|].
    inversion Hkey as [|? ? Hl _]. simpl in Hl. subst l. by left.
  - intros [Hlen Hall]. split.
    + split; cbn [columns values index]; [by rewrite !length_map|].
      apply Forall_fmap, Forall_forall. intros [l v] Hlv. simpl.
      rewrite Forall_forall in Hall. apply Hall.
      by eapply labelled_member.
    + unfold empty in *. cbn [columns index].
      apply orb_false_elim in He as [_ Hi]. rewrite Hi, orb_false_r.
      rewrite length_map.
      apply bool_decide_eq_true_1 in Hc.
      pose proof (labelled_nonempty _ _ _ Hc Hlen) as Hne.
      fold picked in Hne. by destruct picked.
Qed.

Lemma close_only_idempotent_witness :
  close_only {| columns := [LStr "Close"];
                index := index Sample.prices;
                values := [[Sample.float_10; Sample.float_11]] |}
  = Ok {| columns := [LStr "Close"];
          index := index Sample.prices;
          values := [[Sample.float_10; Sample.float_11]] |}.
Proof.
  apply (close_only_idempotent Sample.prices _ eq_refl).
Defined.

(** The table and label [latest_col] returns for a frame with rows. *)
Lemma latest_col_first (df : DataFrame) (o : option DataFrame) (c : label) :
  latest_col (Some df) = Ok (o, c) -> empty df = false ->
  c = first_column df /\
  exists cells,
    values df !! 0%nat = Some cells /\
    o = Some {| columns := [LStr "Item"; LStr "Value"];
                index := range_index (length (index df));
                values := [map val_of_label (index df); cells] |}.
Proof.
  intros E He. rewrite latest_col_eval in E by done.
  unfold first_column in *. unfold empty in He.
  destruct (columns df) as [|col ls]; [discriminate|]. cbn [hd] in *.
  destruct (values df) as [|v0 vs]; [discriminate|].
  cbn [labelled] in E. rewrite bool_decide_eq_true_2 in E by done.
  destruct (labelled col ls vs); [|discriminate].
  injection E as <- <-. split; [done|]. by exists v0.
Qed.

(** X7. In the returned dictionary each period label belongs to the column
    the rows come from: for a statement frame with rows, the table holds
    the cells of the frame's first column and the period is
    [pretty_period] of that column's label. *)
Theorem statement_period_matches (tkr : string) (r : Data) :
  load_data tkr = Ok r ->
  (forall df, income_stmt (yf_Ticker tkr) = Ok (Some df) ->
     empty df = false ->
     pretty_period (first_column df) = Ok (inc_period r) /\
     exists cells,
       values df !! 0%nat = Some cells /\
       inc r = Some {| columns := [LStr "Item"; LStr "Value"];
                       index := range_index (length (index df));
                       values := [map val_of_label (index df); cells] |}) /\
  (forall df, balance_sheet (yf_Ticker tkr) = Ok (Some df) ->
     empty df = false ->
     pretty_period (first_column df) = Ok (bal_period r) /\
     exists cells,
       values df !! 0%nat = Some cells /\
       bal r = Some {| columns := [LStr "Item"; LStr "Value"];
                       index := range_index (length (index df));
                       values := [map val_of_label (index df); cells] |}) /\
  (forall df, cashflow (yf_Ticker tkr) = Ok (Some df) ->
     empty df = false ->
     pretty_period (first_column df) = Ok (cf_period r) /\
     exists cells,
       values df !! 0%nat = Some cells /\
       cf r = Some {| columns := [LStr "Item"; LStr "Value"];
                      index := range_index (length (index df));
                      values := [map val_of_label (index df); cells] |}).
Proof.
  intros (h & i & b & c & ic & bc & cc & _ & _ & _ & Ei & Eb & Ec
          & Eli & Elb & Elc & Epi & Epb & Epc)%load_data_inv.
  split; [|split]; intros df E He.
  - rewrite E in Ei. injection Ei as <-.
    destruct (latest_col_first df _ _ Eli He) as [-> Hcells]. by split.
  - rewrite E in Eb. injection Eb as <-.
    destruct (latest_col_first df _ _ Elb He) as [-> Hcells]. by split.
  - rewrite E in Ec. injection Ec as <-.
    destruct (latest_col_first df _ _ Elc He) as [-> Hcells]. by split.
Qed.

(** X2. With well-formed tables, [load_data] raises exactly when the price
    request or a statement accessor raises, and the exception is that of
    the first of them in call order: price history, income statement,
    balance sheet, cash flow. *)
Theorem load_data_raises_iff (tkr : string) (e : exn) :
  (forall h, history (yf_Ticker tkr) "5y" "1d" true = Ok h -> price_table h) ->
  (forall i, income_stmt (yf_Ticker tkr) = Ok i -> statement_ok i) ->
  (forall b, balance_sheet (yf_Ticker tkr) = Ok b -> statement_ok b) ->
  (forall c, cashflow (yf_Ticker tkr) = Ok c -> statement_ok c) ->
  load_data tkr = Raise e <->
  history (yf_Ticker tkr) "5y" "1d" true = Raise e
  \/ ((exists h, history (yf_Ticker tkr) "5y" "1d" true = Ok h) /\
      income_stmt (yf_Ticker tkr) = Raise e)
  \/ ((exists h, history (yf_Ticker tkr) "5y" "1d" true = Ok h) /\
      (exists i, income_stmt (yf_Ticker tkr) = Ok i) /\
      balance_sheet (yf_Ticker tkr) = Raise e)
  \/ ((exists h, history (yf_Ticker tkr) "5y" "1d" true = Ok h) /\
      (exists i, income_stmt (yf_Ticker tkr) = Ok i) /\
      (exists b, balance_sheet (yf_Ticker tkr) = Ok b) /\
      cashflow (yf_Ticker tkr) = Raise e).
Proof.
  intros Hp Hi Hb Hc. unfold App.load_data.
  destruct (meta_name_returns (yf_Ticker tkr)) as [n ->]. cbn [bind].
  destruct (history _ _ _ _) as [h|e0] eqn:Eh; cbn [bind].
  2: { split; [intros [= ->]; by left|].
       intros [H|[[[? ?] _]|[[[? ?] _]|[[? ?] _]]]]; congruence. }
  destruct (close_only_returns h (Hp h eq_refl)) as [h' ->]. cbn [bind].
  destruct (income_stmt _) as [i|e0] eqn:Ei; cbn [bind].
  2: { split; [intros [= ->]; right; left; split; eauto|].
       intros [H|[[_ H]|[(_ & [? ?] & _)|(_ & [? ?] & _)]]]; congruence. }
  destruct (balance_sheet _) as [b|e0] eqn:Eb; cbn [bind].
  2: { split; [intros [= ->]; right; right; left; repeat split; eauto|].
       intros [H|[[_ H]|[(_ & _ & H)|(_ & _ & [? ?] & _)]]]; congruence. }
  destruct (cashflow _) as [c|e0] eqn:Ec; cbn [bind].
  2: { split; [intros [= ->]; right; right; right; repeat split; eauto|].
       intros [H|[[_ H]|[(_ & _ & H)|(_ & _ & _ & H)]]]; congruence. }
  destruct (latest_col_returns i (Hi i eq_refl)) as (il & ic & ->).
  destruct (latest_col_returns b (Hb b eq_refl)) as (bl & bc & ->).
  destruct (latest_col_returns c (Hc c eq_refl)) as (cl & cc & ->).
  cbn [bind].
  destruct (pretty_period_returns to_datetime ic) as [ip ->].
  destruct (pretty_period_returns to_datetime bc) as [bp ->].
  destruct (pretty_period_returns to_datetime cc) as [cp ->].
  cbn [bind]. split; [done|].
  intros [H|[[_ H]|[(_ & _ & H)|(_ & _ & _ & H)]]]; congruence.
Qed.

(** X3. A price table that has rows but no "Close" column makes
    [load_data] raise [KeyError], whatever the statements are. *)
Theorem load_data_no_close_column (tkr : string) (h : DataFrame) :
  history (yf_Ticker tkr) "5y" "1d" true = Ok h ->
  empty h = false ->
  LStr "Close" ∉ columns h ->
  close_only h = Raise KeyError /\ load_data tkr = Raise KeyError.
Proof.
  intros Eh He Hno.
  assert (Ec : close_only h = Raise KeyError).
  { unfold close_only, getitem_list. rewrite He. cbn [negb forallb].
    unfold has_column. by rewrite bool_decide_eq_false_2. }
  split; [done|]. unfold App.load_data.
  destruct (meta_name_returns (yf_Ticker tkr)) as [n ->].
  rewrite Eh. cbn [bind]. by rewrite Ec.
Qed.

End Pipeline.

Lemma statement_period_matches_witness :
  App.pretty_period Sample.iso_to_datetime (first_column Sample.income)
  = Ok "2023-12-31"%string.
Proof.
  destruct (statement_period_matches Sample.provider Sample.iso_to_datetime
              "ABC.X" _ load_data_abc) as (H & _).
  exact (proj1 (H Sample.income eq_refl eq_refl)).
Defined.

Lemma load_data_raises_iff_witness :
  App.load_data Sample.provider Sample.iso_to_datetime "DOWN.X"
  = Raise (ProviderError "timeout").
Proof.
  apply (load_data_raises_iff Sample.provider Sample.iso_to_datetime
           "DOWN.X" (ProviderError "timeout")).
  - intros h [=].
  - intros i [= <-]. apply statement_ok_None.
  - intros b [= <-]. apply statement_ok_None.
  - intros c [= <-]. apply statement_ok_None.
  - left. reflexivity.
Defined.

Lemma load_data_no_close_column_witness :
  App.load_data Demo.no_close Sample.iso_to_datetime "OPEN.X"
  = Raise KeyError.
Proof.
  apply (load_data_no_close_column Demo.no_close Sample.iso_to_datetime
           "OPEN.X" Demo.open_only eq_refl eq_refl).
  intros H%list_elem_of_In. simpl in H. destruct H as [[=]|[[=]|[]]].
Defined.

(** * Further properties of the formatter *)

Section FormatterAgain.

(** Text without blanks is left alone by [float_strip]. *)
Lemma float_lstrip_no_space (cs : list ascii) :
  forallb (fun c => negb (is_float_space c)) cs = true ->
  float_lstrip cs = cs.
Proof.
  destruct cs as [|c cs]; [done|]. simpl.
  intros [Hc _]%andb_prop. by destruct (is_float_space c).
Qed.

Lemma float_strip_no_space (cs : list ascii) :
  forallb (fun c => negb (is_float_space c)) cs = true ->
  float_strip cs = cs.
Proof.
  intros H. unfold float_strip. rewrite (float_lstrip_no_space cs H).
  rewrite float_lstrip_no_space by (by rewrite forallb_rev).
  apply rev_involutive.
Qed.

Lemma drop_underscores_none (b : bool) (cs : list ascii) :
  forallb (fun c => negb (Ascii.eqb c "_")) cs = true ->
  drop_underscores b cs = Some cs.
Proof.
  revert b. induction cs as [|c cs IH]; intros b; [done|]. simpl.
  intros [Hc Hcs]%andb_prop. destruct (Ascii.eqb c "_"); [done|].
  by rewrite IH.
Qed.

(** [span_digits] splits off digits and stops at the first other
    character. *)
Lemma span_digits_spec (cs : list ascii) :
  forallb is_digit (span_digits cs).1 = true /\
  cs = (span_digits cs).1 ++ (span_digits cs).2 /\
  match (span_digits cs).2 with
  | [] => True
  | c :: _ => is_digit c = false
  end.
Proof.
  induction cs as [|c cs (IH1 & IH2 & IH3)]; [done|]. simpl.
  destruct (is_digit c) eqn:Hc.
  - destruct (span_digits cs) as [ds rest]. simpl in *.
    rewrite Hc. split; [done|]. split; [by f_equal|done].
  - simpl. done.
Qed.

Lemma plain_char_all (c : ascii) : Checks.plain_char c = true.
Proof. destruct c as [[] [] [] [] [] [] [] []]; reflexivity. Qed.

Lemma digit_or_comma_facts (c : ascii) :
  is_digit c || Ascii.eqb c "," = true ->
  is_float_space c = false /\ Ascii.eqb c "_" = false /\
  Ascii.eqb c "-" = false /\ Ascii.eqb c "+" = false /\
  Ascii.eqb c "." = false /\ lower c = c /\
  Ascii.eqb c "e" = false /\ Ascii.eqb c "i" = false /\
  Ascii.eqb c "n" = false.
Proof.
  intros H. pose proof (plain_char_all c) as P. unfold Checks.plain_char in P.
  rewrite H in P. cbn [implb] in P.
  repeat (apply andb_prop in P as [P ?]).
  repeat match goal with
         | X : negb _ = true |- _ => apply negb_true_iff in X
         end.
  repeat split; try assumption. by apply Ascii.eqb_eq.
Qed.

(** [float] rejects digits with thousands separators. *)
Lemma float_of_str_grouped (neg : bool) (body : list ascii) :
  forallb (fun c => is_digit c || Ascii.eqb c ",") body = true ->
  In ","%char body ->
  float_of_str (signed neg body) = Raise ValueError.
Proof.
  intros Hall Hin. rewrite forallb_forall in Hall.
  unfold float_of_str, signed. rewrite list_ascii_of_string_of_list_ascii.
  set (cs := if neg then "-"%char :: body else body).
  assert (Hcs : forall c, In c cs ->
                 is_float_space c = false /\ Ascii.eqb c "_" = false).
  { intros c Hc. assert (c = "-"%char \/ In c body) as [->|Hb].
    { subst cs. destruct neg; [destruct Hc; auto|auto]. }
    - done.
    - destruct (digit_or_comma_facts c (Hall c Hb)) as (? & ? & _). done. }
  rewrite float_strip_no_space.
  2: { apply forallb_forall. intros c Hc. by rewrite (proj1 (Hcs c Hc)). }
  rewrite drop_underscores_none.
  2: { apply forallb_forall. intros c Hc. by rewrite (proj2 (Hcs c Hc)). }
  destruct body as [|b0 body']; [done|].
  destruct (digit_or_comma_facts b0 (Hall b0 (or_introl eq_refl)))
    as (_ & _ & Hm & Hp & Hdot & Hlow & He & Hi & Hn).
  assert (Hsign : take_sign cs = (neg, b0 :: body')).
  { subst cs. destruct neg; [done|]. simpl. by rewrite Hm, Hp. }
  rewrite Hsign.
  assert (Hw : forall w, String.eqb
                 (string_of_list_ascii (map lower (b0 :: body'))) w = true ->
               exists c t, w = String c t /\ c = b0).
  { intros w Hw%String.eqb_eq. subst w. simpl. rewrite Hlow. by eexists _, _. }
  assert (Hinf : String.eqb (string_of_list_ascii (map lower (b0 :: body')))
                   "inf" = false).
  { destruct (String.eqb _ "inf") eqn:E; [|done].
    destruct (Hw _ E) as (c & t & [= <- _] & Hc). subst b0. discriminate. }
  assert (Hinfinity :
            String.eqb (string_of_list_ascii (map lower (b0 :: body')))
              "infinity" = false).
  { destruct (String.eqb _ "infinity") eqn:E; [|done].
    destruct (Hw _ E) as (c & t & [= <- _] & Hc). subst b0. discriminate. }
  assert (Hnan : String.eqb (string_of_list_ascii (map lower (b0 :: body')))
                   "nan" = false).
  { destruct (String.eqb _ "nan") eqn:E; [|done].
    destruct (Hw _ E) as (c & t & [= <- _] & Hc). subst b0. discriminate. }
  rewrite Hinf, Hinfinity, Hnan. cbn [orb].
  unfold parse_decimal.
  destruct (span_digits_spec (b0 :: body')) as (Hd & Happ & Hrest).
  destruct (span_digits (b0 :: body')) as [ip rest]. cbn [fst snd] in *.
  destruct rest as [|c r].
  { exfalso. rewrite app_nil_r in Happ. rewrite <- Happ in Hd.
    rewrite forallb_forall in Hd. specialize (Hd _ Hin). discriminate Hd. }
  assert (Hc : In c (b0 :: body')) by (rewrite Happ; apply in_elt).
  destruct (digit_or_comma_facts c (Hall c Hc))
    as (_ & _ & _ & _ & Hcdot & Hclow & Hce & _).
  rewrite Hcdot. rewrite app_nil_r.
  destruct ip as [|i0 ip']; [done|].
  unfold parse_exponent. by rewrite Hclow, Hce.
Qed.

(** Up to three digits write a number below one thousand. *)
Lemma small_digits (n : N) :
  (length (digits n) <= 3)%nat -> (n < 1000)%N.
Proof.
  destruct n as [|p]; [lia|]. unfold digits. cbn [N.to_uint].
  pose proof (DecimalPos.Unsigned.of_to p) as Hof.
  assert (Hnil : forall d, (length (chars_of_uint d) <= 0)%nat -> d = Nil)
    by (intros []; simpl; (done || lia)).
  intros Hlen. rewrite <- Hof. clear Hof.
  destruct (Pos.to_uint p) as [|d1|d1|d1|d1|d1|d1|d1|d1|d1|d1];
    [reflexivity|..].
  all: destruct d1 as [|d2|d2|d2|d2|d2|d2|d2|d2|d2|d2]; [reflexivity|..].
  all: destruct d2 as [|d3|d3|d3|d3|d3|d3|d3|d3|d3|d3]; [reflexivity|..].
  all: cbn [chars_of_uint length] in Hlen.
  all: rewrite (Hnil d3) by lia; reflexivity.
Qed.

Lemma fmt_fixes_small (neg : bool) (n : N) :
  (n < 1000)%N -> Checks.fmt_fixes neg n = true.
Proof.
  intros Hn.
  assert (Hall : forallb (fun k => Checks.fmt_fixes true (N.of_nat k)
                                   && Checks.fmt_fixes false (N.of_nat k))
                   (seq 0 (Z.to_nat 1000)) = true)
    by (vm_compute; reflexivity).
  rewrite forallb_forall in Hall. specialize (Hall (N.to_nat n)).
  rewrite N2Nat.id in Hall.
  apply andb_prop in Hall as [Ht Hf]; [by destruct neg|].
  apply in_seq. lia.
Qed.

(** Four digits or more get a separator. *)
Lemma group3_long (ds : list ascii) :
  (4 <= length ds)%nat -> In ","%char (group3 ds).
Proof.
  intros Hlen. unfold group3. apply in_rev. rewrite rev_involutive.
  rewrite <- length_rev in Hlen.
  destruct (rev ds) as [|a [|b [|c [|d rest]]]]; simpl in Hlen; try lia.
  simpl. auto.
Qed.

(** The text [fmt] writes for a float is text [fmt] leaves alone. *)
Lemma fmt_formatted (v : spec_float) :
  fmt (PStr (format_comma_0f v)) = Ok (PStr (format_comma_0f v)).
Proof.
  destruct v as [[]|[]| |s m e]; try (vm_compute; reflexivity).
  cbn [format_comma_0f]. set (n := round_half_even m e).
  destruct (le_lt_dec (length (digits n)) 3) as [Hshort|Hlong].
  - pose proof (fmt_fixes_small s n (small_digits n Hshort)) as H.
    unfold Checks.fmt_fixes in H.
    destruct (fmt _) as [[| | | | | |t|]|]; try discriminate.
    by apply String.eqb_eq in H as ->.
  - unfold fmt. cbn [isna float].
    rewrite float_of_str_grouped; [done| |by apply group3_long].
    pose proof (grouped_group3 (digits n) (digits_nonempty n)
                  (digits_all_digit n)) as Hg.
    apply groups_rev_chars in Hg. by rewrite forallb_rev in Hg.
Qed.

Lemma fmt_again (x y : pyval) : fmt x = Ok y -> fmt y = Ok y.
Proof.
  unfold fmt at 1. destruct (isna x) eqn:Hna.
  { intros [= <-]. reflexivity. }
  destruct (float x) as [v|e] eqn:Hv; cbn [bind try_except].
  - intros [= <-]. apply fmt_formatted.
  - intros [= <-]. by apply fmt_as_is with e.
Qed.

(** X8. [fmt] is idempotent: a value it has returned it returns unchanged,
    so formatting an already formatted cell changes nothing. *)
Theorem fmt_idempotent (x y : pyval) :
  fmt x = Ok y -> fmt y = Ok y.
Proof. apply fmt_again. Qed.

Lemma fmt_idempotent_witness :
  fmt (PStr "1,234,568") = Ok (PStr "1,234,568").
Proof.
  apply (fmt_idempotent (PStr "1234567.89")). vm_compute. reflexivity.
Defined.

(** X9. Whatever [fmt] returns is not a missing value, and it is a string
    unless it is the argument itself; applied down a column it keeps the
    number of cells.  A formatted column therefore shows no [None], NaN or
    [pd.NA]. *)
Theorem fmt_never_missing (vs : list pyval) :
  exists ws,
    series_apply fmt vs = Ok ws /\
    length ws = length vs /\
    Forall (fun y => isna y = false) ws /\
    Forall2 (fun x y => (exists t, y = PStr t) \/ y = x) vs ws.
Proof.
  destruct (series_apply_fmt vs) as (ws & E & HF). exists ws.
  split; [done|]. split; [symmetry; by eapply Forall2_length|].
  assert (Hone : forall x y, fmt x = Ok y ->
            isna y = false /\ ((exists t, y = PStr t) \/ y = x)).
  { intros x y. unfold fmt. destruct (isna x) eqn:Hna.
    - intros [= <-]. eauto.
    - destruct (float x); cbn [bind try_except]; intros [= <-]; eauto. }
  split.
  - clear E. induction HF as [|x y vs ws Hxy _ IH]; constructor; [|done].
    by apply (Hone x y).
  - eapply Forall2_impl; [exact HF|]. intros x y Hxy. by apply (Hone x y).
Qed.

Lemma series_apply_fmt_again (vs ws : list pyval) :
  series_apply fmt vs = Ok ws -> series_apply fmt ws = Ok ws.
Proof.
  revert ws. induction vs as [|v vs IH]; intros ws; simpl.
  { by intros [= <-]. }
  destruct (fmt v) as [w|] eqn:Ew; [|discriminate]. cbn [bind].
  destruct (series_apply fmt vs) as [ws'|]; [|discriminate]. cbn [bind].
  intros [= <-]. simpl. rewrite (fmt_again v w Ew). cbn [bind].
  by rewrite (IH ws' eq_refl).
Qed.

Lemma labelled_replace key new ls (vs : list (list pyval)) :
  labelled key ls (replace_labelled key new ls vs)
  = map (fun lv => (lv.1, new)) (labelled key ls vs).
Proof.
  revert vs. induction ls as [|l ls IH]; intros [|v vs]; simpl; try done.
  case_bool_decide; simpl; by rewrite IH.
Qed.

Lemma replace_labelled_again key new ls (vs : list (list pyval)) :
  replace_labelled key new ls (replace_labelled key new ls vs)
  = replace_labelled key new ls vs.
Proof.
  revert vs. induction ls as [|l ls IH]; intros [|v vs]; simpl; try done.
  rewrite IH. by case_bool_decide.
Qed.

Lemma apply_to_column_again (d d' : DataFrame) (key : label) :
  apply_to_column d key fmt = Ok d' -> apply_to_column d' key fmt = Ok d'.
Proof.
  unfold apply_to_column at 1.
  destruct (labelled key (columns d) (values d)) as [|[c cells] [|? ?]] eqn:El.
  1,3: intros [= <-]; unfold apply_to_column; by rewrite El.
  destruct (series_apply fmt cells) as [new|] eqn:Es; [|discriminate].
  cbn [bind]. intros [= <-]. unfold apply_to_column.
  cbn [columns values index]. rewrite labelled_replace, El. cbn [map fst].
  rewrite (series_apply_fmt_again cells new Es). cbn [bind].
  by rewrite replace_labelled_again.
Qed.

(** [format_commas] on a frame with rows and columns, step by step. *)
Lemma format_commas_eval (h : heap) (l : ref) (d : DataFrame) :
  h !! l = Some d -> empty d = false ->
  h !! fresh (dom h) = None /\
  format_commas (Some l) h
  = if has_column d (LStr "Value")
    then match apply_to_column d (LStr "Value") fmt with
         | Ok d' => (Ok (Some (fresh (dom h))), <[fresh (dom h) := d']> h)
         | Raise e => (Raise e, <[fresh (dom h) := d]> h)
         end
    else (Ok (Some (fresh (dom h))), <[fresh (dom h) := d]> h).
Proof.
  intros Hl He.
  assert (Hf : h !! fresh (dom h) = None)
    by apply not_elem_of_dom, is_fresh.
  split; [done|]. unfold format_commas, copy. rewrite Hl, He.
  rewrite lookup_insert_eq. destruct (has_column d _); [|done].
  destruct (apply_to_column d _ fmt); [|done]. by rewrite insert_insert_eq.
Qed.

(** X10. A frame without a "Value" column comes back with its content
    unchanged: as a copy in a new object when it has rows and columns, as
    the same object when it is empty. *)
Theorem format_commas_plain_copy (h : heap) (l : ref) (d : DataFrame) :
  h !! l = Some d ->
  LStr "Value" ∉ columns d ->
  exists out h',
    format_commas (Some l) h = (Ok (Some out), h') /\
    h' !! out = Some d /\
    (forall l0 d0, h !! l0 = Some d0 -> h' !! l0 = Some d0) /\
    (empty d = false -> h !! out = None /\ h' = <[out := d]> h) /\
    (empty d = true -> out = l /\ h' = h).
Proof.
  intros Hl Hno. destruct (empty d) eqn:He.
  { exists l, h. unfold format_commas. rewrite Hl, He.
    repeat split; auto; discriminate. }
  destruct (format_commas_eval h l d Hl He) as [Hf ->].
  unfold has_column. rewrite bool_decide_eq_false_2 by done.
  exists (fresh (dom h)), (<[fresh (dom h) := d]> h).
  split; [done|]. split; [apply lookup_insert_eq|]. split; [|split].
  - intros l0 d0 H0. rewrite lookup_insert_ne; [done|]. congruence.
  - done.
  - discriminate.
Qed.

Lemma format_commas_plain_copy_witness :
  exists out h',
    format_commas (Some 1%positive) {[ 1%positive := Sample.prices ]}
    = (Ok (Some out), h') /\
    h' !! out = Some Sample.prices.
Proof.
  destruct (format_commas_plain_copy {[ 1%positive := Sample.prices ]}
              1%positive Sample.prices) as (out & h' & E & Ho & _).
  - apply lookup_singleton_eq.
  - intros H%list_elem_of_In. simpl in H.
    destruct H as [[=]|[[=]|[[=]|[]]]].
  - exists out, h'. split; [exact E|exact Ho].
Defined.

(** X11. Formatting twice is formatting once: [format_commas] applied to
    its own result gives a table with the same content, and neither call
    touches the original frame. *)
Theorem format_commas_twice (h : heap) (l : ref) (d : DataFrame) :
  h !! l = Some d -> empty d = false ->
  exists out1 h1 d1 out2 h2,
    format_commas (Some l) h = (Ok (Some out1), h1) /\
    h1 !! out1 = Some d1 /\
    format_commas (Some out1) h1 = (Ok (Some out2), h2) /\
    h2 !! out2 = Some d1 /\
    h2 !! out1 = Some d1 /\
    h2 !! l = Some d /\
    out2 <> out1 /\ out1 <> l /\ out2 <> l.
Proof.
  intros Hl He.
  destruct (format_commas_eval h l d Hl He) as [Hf ->].
  destruct (apply_to_column_fmt d (LStr "Value"))
    as (d' & Ea & Hc & Hi & _).
  set (out1 := fresh (dom h)) in *.
  set (d1 := if has_column d (LStr "Value") then d' else d).
  assert (E1 : (if has_column d (LStr "Value")
                then match apply_to_column d (LStr "Value") fmt with
                     | Ok d'0 => (Ok (Some out1), <[out1 := d'0]> h)
                     | Raise e => (Raise e, <[out1 := d]> h)
                     end
                else (Ok (Some out1), <[out1 := d]> h))
               = (Ok (Some out1), <[out1 := d1]> h)).
  { subst d1. rewrite Ea. by destruct (has_column d _). }
  rewrite E1. set (h1 := <[out1 := d1]> h).
  assert (H1 : h1 !! out1 = Some d1) by apply lookup_insert_eq.
  assert (Hcols : columns d1 = columns d /\ index d1 = index d)
    by (subst d1; by destruct (has_column d _)).
  assert (He1 : empty d1 = false)
    by (unfold empty in *; destruct Hcols as [-> ->]; done).
  destruct (format_commas_eval h1 out1 d1 H1 He1) as [Hf2 Ef2].
  set (out2 := fresh (dom h1)) in *.
  assert (Ea1 : has_column d1 (LStr "Value") = true ->
                apply_to_column d1 (LStr "Value") fmt = Ok d1).
  { intros Hv. subst d1. unfold has_column in *.
    destruct Hcols as [Hcols _].
    destruct (bool_decide (LStr "Value" ∈ columns d)) eqn:Hd.
    - by apply apply_to_column_again with d.
    - congruence. }
  assert (E2 : (if has_column d1 (LStr "Value")
                then match apply_to_column d1 (LStr "Value") fmt with
                     | Ok d'0 => (Ok (Some out2), <[out2 := d'0]> h1)
                     | Raise e => (Raise e, <[out2 := d1]> h1)
                     end
                else (Ok (Some out2), <[out2 := d1]> h1))
               = (Ok (Some out2), <[out2 := d1]> h1)).
  { destruct (has_column d1 _) eqn:Hv; [|done]. by rewrite Ea1. }
  rewrite E2 in Ef2.
  assert (Hne21 : out2 <> out1) by congruence.
  assert (Hne1l : out1 <> l) by congruence.
  assert (Hne2l : out2 <> l).
  { intros ->. subst h1. rewrite lookup_insert_ne in Hf2 by done.
    congruence. }
  exists out1, h1, d1, out2, (<[out2 := d1]> h1).
  split; [done|]. split; [done|]. split; [done|].
  split; [apply lookup_insert_eq|].
  split; [by rewrite lookup_insert_ne|].
  split; [|done].
  subst h1. by rewrite !lookup_insert_ne.
Qed.

Lemma format_commas_twice_witness :
  exists out1 h1 d1 out2 h2,
    format_commas (Some 1%positive) {[ 1%positive := Sample.view ]}
    = (Ok (Some out1), h1) /\
    format_commas (Some out1) h1 = (Ok (Some out2), h2) /\
    h2 !! out2 = Some d1 /\ h2 !! out1 = Some d1.
Proof.
  destruct (format_commas_twice {[ 1%positive := Sample.view ]} 1%positive
              Sample.view (lookup_singleton_eq _ _) eq_refl)
    as (out1 & h1 & d1 & out2 & h2 & E1 & _ & E2 & H2 & H1 & _).
  exists out1, h1, d1, out2, h2. repeat split; assumption.
Defined.

End FormatterAgain.

(** * Properties of the page *)

Section PageProperties.

Import Page.

Variable yf_Ticker : string -> Ticker.
Variable to_datetime : string -> result (option Timestamp).
Variable to_csv : bool -> DataFrame -> string.
Variable format_other : pyval -> result string.
Variable str_other : pyval -> string.

Abbreviation page := (page yf_Ticker to_datetime to_csv format_other str_other).

(** Running two steps in a row. *)
Lemma ui_bind_done {A B} (c : ui A) (k : A -> ui B) (h h1 : heap)
  (ws : list widget) (a : A) :
  c h = (ws, h1, Done a) ->
  (c ≫= k) h = (let '(ws', h2, o) := k a h1 in (ws ++ ws', h2, o)).
Proof. intros E. unfold mbind, ui_bind. by rewrite E. Qed.

Lemma ui_bind_crashed {A B} (c : ui A) (k : A -> ui B) (h h1 : heap)
  (ws : list widget) (e : crash) :
  c h = (ws, h1, Crashed e) -> (c ≫= k) h = (ws, h1, Crashed e).
Proof. intros E. unfold mbind, ui_bind. by rewrite E. Qed.

Lemma downloads_app (ws ws' : list widget) :
  downloads (ws ++ ws') = (downloads ws + downloads ws')%nat.
Proof. unfold downloads. by rewrite List.filter_app, length_app. Qed.

Lemma downloads_cons (w : widget) (ws : list widget) :
  downloads (w :: ws)
  = ((if is_download w then 1 else 0) + downloads ws)%nat.
Proof. unfold downloads. simpl. by destruct (is_download w). Qed.

Lemma lstrip_all_space (cs : list ascii) :
  forallb is_space cs = true -> lstrip cs = [].
Proof.
  induction cs as [|c cs IH]; [done|]. simpl.
  intros [-> Hcs]%andb_prop. by apply IH.
Qed.

Lemma strip_blank (typed : string) :
  forallb is_space (list_ascii_of_string typed) = true -> strip typed = "".
Proof.
  intros H. unfold strip, Py.strip. by rewrite (lstrip_all_space _ H).
Qed.

(** X12. For a ticker box holding only white space the page is the prompt
    and nothing else: no provider is consulted and the store is untouched.
    For any other text the ticker handed to [load_data] is the text
    stripped, in the case it was typed; when [load_data] raises, the page
    ends there with that exception, after the page set-up only. *)
Theorem page_entry (typed : string) (h : heap) :
  (forallb is_space (list_ascii_of_string typed) = true ->
   page typed h
   = ([StPageConfig "Price & Financials" "wide";
       StTitle "Price & Financials (Ticker-driven)";
       StTextInput "Ticker (use exchange suffix if needed, e.g., LSEG.L)"
         "LSEG.L";
       StInfo "Enter a ticker to load the chart and statements."],
      h, Done tt)) /\
  (forall e, strip typed <> ""%string ->
     load_data yf_Ticker to_datetime (strip typed) = Raise e ->
     page typed h
     = ([StPageConfig "Price & Financials" "wide";
         StTitle "Price & Financials (Ticker-driven)";
         StTextInput "Ticker (use exchange suffix if needed, e.g., LSEG.L)"
           "LSEG.L"],
        h, Crashed (PyExn e))).
Proof.
  split.
  - intros Hb. unfold Page.page. rewrite (strip_blank typed Hb). reflexivity.
  - intros e Hne E. unfold Page.page.
    apply String.eqb_neq in Hne. rewrite Hne. cbn [negb].
    unfold mbind, ui_bind, emit. cbn. rewrite E. reflexivity.
Qed.

(** The statement column for a table with rows: the copy shown and the
    frame exported. *)
Lemma statement_block_eval (heading period : string) (d : DataFrame)
  (button file_name : string) (h : heap) :
  empty d = false ->
  exists shown l out,
    statement_block to_csv heading period (Some d) button file_name h
    = ([StMarkdown ("**" ++ heading ++ "**  " ++ newline
                    ++ "_Period end: " ++ period ++ "_");
        StDataframe (Some shown) true;
        StDownloadButton button (to_csv false d) file_name "text/csv"],
       <[out := shown]> (<[l := d]> h), Done tt) /\
    h !! l = None /\ (<[l := d]> h) !! out = None /\
    (if has_column d (LStr "Value")
     then apply_to_column d (LStr "Value") fmt = Ok shown
     else shown = d).
Proof.
  intros He. unfold statement_block. rewrite He.
  set (l := fresh (dom h)).
  assert (Hl : h !! l = None) by apply not_elem_of_dom, is_fresh.
  set (h1 := <[l := d]> h).
  assert (H1 : h1 !! l = Some d) by apply lookup_insert_eq.
  destruct (format_commas_eval h1 l d H1 He) as [Hout Ef].
  set (out := fresh (dom h1)) in *.
  destruct (apply_to_column_fmt d (LStr "Value")) as (d' & Ea & _).
  set (shown := if has_column d (LStr "Value") then d' else d).
  assert (Ef' : format_commas (Some l) h1
                = (Ok (Some out), <[out := shown]> h1)).
  { rewrite Ef. subst shown. rewrite Ea. by destruct (has_column d _). }
  assert (Hne : out <> l).
  { intros E. rewrite E, H1 in Hout. discriminate. }
  exists shown, l, out. split; [|split; [done|split; [done|]]].
  - unfold mbind, ui_bind, emit, object_of, call_format_commas, read.
    fold l. fold h1. rewrite Ef'. cbn [mbind option_bind].
    rewrite lookup_insert_eq. cbn [app].
    unfold mbind, option_bind.
    rewrite lookup_insert_ne by done. rewrite H1. reflexivity.
  - subst shown. by destruct (has_column d _).
Qed.

Lemma statement_block_absent (heading period : string)
  (t : option DataFrame) (button file_name : string) (h : heap) :
  available t = 0%nat ->
  statement_block to_csv heading period t button file_name h
  = ([StMarkdown ("**" ++ heading ++ "**  " ++ newline
                  ++ "_Period end: " ++ period ++ "_");
      StInfo "Not available."], h, Done tt).
Proof.
  unfold statement_block, available. destruct t as [d|]; [|done].
  by destruct (empty d).
Qed.

(** X13. A statement column with a table shows a formatted copy and exports
    the dictionary's own frame: the download is [to_csv(index=False)] of
    the unformatted table, while the table on screen has the same labels
    and index, every column other than "Value" unchanged, and a single
    "Value" column run through [fmt] cell by cell.  Objects already in the
    store stay as they were. *)
Theorem statement_block_exports_raw (heading period : string)
  (d : DataFrame) (button file_name : string) (h : heap) :
  empty d = false ->
  exists shown h',
    statement_block to_csv heading period (Some d) button file_name h
    = ([StMarkdown ("**" ++ heading ++ "**  " ++ newline
                    ++ "_Period end: " ++ period ++ "_");
        StDataframe (Some shown) true;
        StDownloadButton button (to_csv false d) file_name "text/csv"],
       h', Done tt) /\
    columns shown = columns d /\
    index shown = index d /\
    (forall j c, columns d !! j = Some c -> c <> LStr "Value" ->
       values shown !! j = values d !! j) /\
    (forall items vals,
       columns d = [LStr "Item"; LStr "Value"] -> values d = [items; vals] ->
       exists vals',
         values shown = [items; vals'] /\
         Forall2 (fun x y => fmt x = Ok y) vals vals') /\
    (forall l0 d0, h !! l0 = Some d0 -> h' !! l0 = Some d0).
Proof.
  intros He.
  destruct (statement_block_eval heading period d button file_name h He)
    as (shown & l & out & E & Hl & Hout & Hshown).
  exists shown, (<[out := shown]> (<[l := d]> h)). split; [exact E|].
  destruct (apply_to_column_fmt d (LStr "Value"))
    as (d' & Ea & Hc & Hi & _ & Hoth).
  assert (Hsame : columns shown = columns d /\ index shown = index d /\
            forall j c, columns d !! j = Some c -> c <> LStr "Value" ->
                        values shown !! j = values d !! j).
  { destruct (has_column d _).
    - rewrite Ea in Hshown. injection Hshown as <-. auto.
    - subst shown. auto. }
  destruct Hsame as (Hc' & Hi' & Hoth').
  split; [done|]. split; [done|]. split; [done|]. split.
  - intros items vals Ecols Evals.
    assert (Hv : has_column d (LStr "Value") = true).
    { apply bool_decide_eq_true_2. rewrite Ecols.
      apply list_elem_of_In. simpl. auto. }
    rewrite Hv in Hshown. unfold apply_to_column in Hshown.
    rewrite Ecols, Evals in Hshown.
    replace (labelled (LStr "Value") [LStr "Item"; LStr "Value"]
               [items; vals]) with [(LStr "Value", vals)] in Hshown
      by reflexivity.
    destruct (series_apply_fmt vals) as (vals' & Es & HF).
    rewrite Es in Hshown. cbn [bind] in Hshown. injection Hshown as <-.
    exists vals'. split; [reflexivity|exact HF].
  - intros l0 d0 H0.
    assert (Hl0 : l <> l0) by congruence.
    assert (Hout0 : out <> l0).
    { intros ->. rewrite lookup_insert_ne in Hout by done. congruence. }
    by rewrite !lookup_insert_ne.
Qed.


Lemma statement_block_any (heading period : string) (t : option DataFrame)
  (button file_name : string) (h : heap) :
  exists ws h',
    statement_block to_csv heading period t button file_name h
    = (ws, h', Done tt) /\
    downloads ws = available t /\
    (forall l0 d0, h !! l0 = Some d0 -> h' !! l0 = Some d0).
Proof.
  destruct (available t) eqn:Ea.
  - rewrite statement_block_absent by done. by eexists _, _.
  - destruct t as [d|]; [|discriminate]. simpl in Ea.
    destruct (empty d) eqn:He; [discriminate|].
    destruct (statement_block_eval heading period d button file_name h He)
      as (shown & l & out & E & Hl & Hout & _).
    rewrite E. eexists _, _. split; [done|]. split.
    + injection Ea as <-. reflexivity.
    + intros l0 d0 H0.
      assert (Hl0 : l <> l0) by congruence.
      assert (Hout0 : out <> l0).
      { intros ->. rewrite lookup_insert_ne in Hout by done. congruence. }
      by rewrite !lookup_insert_ne.
Qed.

Lemma header_eval (ticker : string) (data : Data) (h : heap) :
  name data <> PNA ->
  exists text,
    header str_other ticker data h
    = ([StSubheader ("Ticker: **" ++ upper ticker ++ "**");
        StCaption ("Instrument name: " ++ text)], h, Done tt) /\
    (truthy (name data) = Ok false -> text = "N/A"%string) /\
    (forall s, name data = PStr s -> s <> ""%string -> text = s).
Proof.
  intros Hna. unfold header, py_or.
  destruct (truthy (name data)) as [b|e] eqn:Et.
  2: { destruct (name data) as [| | | | |[]| |]; done. }
  exists (text_of str_other (if b then name data else PStr "N/A")).
  split; [reflexivity|]. split.
  - by intros [= ->].
  - intros s Es Hs. rewrite Es in *. simpl in Et. injection Et as <-.
    apply String.eqb_neq in Hs. by rewrite Hs.
Qed.

(** X17. Under the ticker in upper case the caption shows the instrument
    name when it is truthy, as it stands when it is a string, and "N/A"
    when the name is absent or otherwise falsy, such as the empty string.
    A name that is [pd.NaT] is truthy and is shown as NaT.  A name without
    a truth value ([pd.NA]) ends the page with [TypeError] after the ticker
    line. *)
Theorem header_caption (ticker : string) (data : Data) (h : heap) :
  (truthy (name data) = Ok true ->
   header str_other ticker data h
   = ([StSubheader ("Ticker: **" ++ upper ticker ++ "**");
       StCaption ("Instrument name: " ++ text_of str_other (name data))],
      h, Done tt)) /\
  (truthy (name data) = Ok false ->
   header str_other ticker data h
   = ([StSubheader ("Ticker: **" ++ upper ticker ++ "**");
       StCaption "Instrument name: N/A"], h, Done tt)) /\
  (name data = PNA ->
   header str_other ticker data h
   = ([StSubheader ("Ticker: **" ++ upper ticker ++ "**")],
      h, Crashed (PyExn TypeError))) /\
  (name data = PNaT ->
   header str_other ticker data h
   = ([StSubheader ("Ticker: **" ++ upper ticker ++ "**");
       StCaption "Instrument name: NaT"], h, Done tt)) /\
  (forall s, name data = PStr s -> s <> ""%string ->
   header str_other ticker data h
   = ([StSubheader ("Ticker: **" ++ upper ticker ++ "**");
       StCaption ("Instrument name: " ++ s)], h, Done tt)).
Proof.
  unfold header, py_or. split; [|split; [|split; [|split]]].
  - intros ->. reflexivity.
  - intros ->. reflexivity.
  - intros ->. reflexivity.
  - intros ->. reflexivity.
  - intros s -> Hs. cbn [truthy]. apply String.eqb_neq in Hs.
    rewrite Hs. reflexivity.
Qed.

(** The chart block on prices it can show. *)
Lemma price_block_eval (ticker : string) (data : Data) (h : heap) :
  chartable format_other (hist data) ->
  exists ws,
    price_block to_csv format_other ticker data h = (ws, h, Done tt) /\
    downloads ws = (if empty (hist data) then 0 else 1)%nat.
Proof.
  intros [He|(c & cells & x & value & t & El & Hx & Hv & Ht)];
    unfold price_block.
  { rewrite He. by eexists. }
  destruct (empty (hist data)) eqn:He.
  { by eexists. }
  unfold getitem. rewrite El.
  unfold mbind, ui_bind, lift, iloc_last, date_text, emit, mret, ui_ret.
  rewrite Ht, Hx, Hv. cbn. by eexists.
Qed.

(** X14. When [load_data] returns, the name has a truth value and the
    prices can be charted, the page runs to its end without an exception,
    leaves every object that was in the store as it was, and offers one
    download per data set that is there: one for the prices unless they are
    empty, one for each statement that has a table. *)
Theorem page_completes (typed : string) (data : Data) (h : heap) :
  strip typed <> ""%string ->
  load_data yf_Ticker to_datetime (strip typed) = Ok data ->
  name data <> PNA ->
  chartable format_other (hist data) ->
  exists ws h',
    page typed h = (ws, h', Done tt) /\
    downloads ws
    = ((if empty (hist data) then 0 else 1)
       + available (inc data) + available (bal data)
       + available (cf data))%nat /\
    (forall l0 d0, h !! l0 = Some d0 -> h' !! l0 = Some d0).
Proof.
  intros Hne El Hname Hchart. unfold Page.page.
  apply String.eqb_neq in Hne. rewrite Hne. cbn [negb].
  set (ticker := strip typed) in *.
  destruct (header_eval ticker data h Hname) as (text & Eh & _).
  destruct (price_block_eval ticker data h Hchart) as (wsP & Ep & Hp).
  destruct (statement_block_any "Income Statement" (inc_period data)
              (inc data) "Download Income Statement (latest year)"
              (upper ticker ++ "_income_statement_latest_year.csv") h)
    as (ws1 & h1 & E1 & D1 & K1).
  destruct (statement_block_any
              "Statement of Financial Position (Balance Sheet)"
              (bal_period data) (bal data)
              "Download Balance Sheet (latest year)"
              (upper ticker ++ "_balance_sheet_latest_year.csv") h1)
    as (ws2 & h2 & E2 & D2 & K2).
  destruct (statement_block_any "Cash Flow Statement" (cf_period data)
              (cf data) "Download Cash Flow (latest year)"
              (upper ticker ++ "_cashflow_latest_year.csv") h2)
    as (ws3 & h3 & E3 & D3 & K3).
  unfold mbind at 1 2 3, ui_bind at 1 2 3. unfold emit at 1 2 3.
  unfold mbind at 1, ui_bind at 1. unfold lift. rewrite El.
  unfold mret at 1, ui_ret at 1.
  rewrite (ui_bind_done _ _ _ _ _ _ Eh).
  rewrite (ui_bind_done _ _ _ _ _ _ Ep).
  unfold mbind at 1 2, ui_bind at 1 2. unfold emit at 1 2.
  rewrite (ui_bind_done _ _ _ _ _ _ E1).
  rewrite (ui_bind_done _ _ _ _ _ _ E2).
  rewrite E3. cbn [app].
  eexists _, h3. split; [reflexivity|]. split.
  - repeat first [ rewrite downloads_app
                   | rewrite downloads_cons; cbn [is_download] ].
    rewrite Hp, D1, D2, D3. lia.
  - intros l0 d0 H0. by apply K3, K2, K1.
Qed.

(** X15. The chart block shows an error box, and nothing else, when there
    are no prices.  With prices it shows the last close to two decimals
    beside the date of the last row, then the chart and the download of the
    whole price frame under a file name that starts with the ticker in
    upper case.  When the last row label is no timestamp, or the last close
    has no two-decimal text, the block ends in an exception before any
    widget is shown. *)
Theorem price_block_outcomes (ticker : string) (data : Data) (h : heap) :
  (empty (hist data) = true ->
   price_block to_csv format_other ticker data h
   = ([StError
         "No price history returned. Check the ticker or exchange suffix."],
      h, Done tt)) /\
  (forall c cells x row,
     empty (hist data) = false ->
     labelled (LStr "Close") (columns (hist data)) (values (hist data))
     = [(c, cells)] ->
     last cells = Some x ->
     last (index (hist data)) = Some row ->
     match format_2f format_other (Cell x), row with
     | Ok value, LTime t =>
         price_block to_csv format_other ticker data h
         = ([StMetric "Last Close (most recent obs.)" value (strftime_Ymd t);
             StSubheader "5-Year Daily Close";
             StLineChart (index (hist data)) [cells];
             StDownloadButton "Download 5y CSV" (to_csv true (hist data))
               (upper ticker ++ "_5y_daily_close.csv") "text/csv"],
            h, Done tt)
     | Ok _, _ =>
         price_block to_csv format_other ticker data h
         = ([], h, Crashed AttributeError)
     | Raise e, _ =>
         price_block to_csv format_other ticker data h
         = ([], h, Crashed (PyExn e))
     end).
Proof.
  split.
  - intros He. unfold price_block. by rewrite He.
  - intros c cells x row He El Hx Hrow. unfold price_block.
    rewrite He. unfold getitem. rewrite El.
    unfold mbind, ui_bind, lift, iloc_last, date_text, emit, mret, ui_ret,
      raise.
    rewrite Hrow, Hx.
    destruct (format_2f format_other (Cell x)) as [value|e]; [|reflexivity].
    destruct row; reflexivity.
Qed.

(** X16. The two-decimal text of a finite float is its sign, the whole part
    with thousands separators, a point and exactly two digits; whole part
    and digits together write the integer nearest to a hundred times the
    float, ties to even. *)
Theorem format_comma_2f_shape (s : bool) (m : positive) (e : Z) :
  exists (n : N) (whole frac : list ascii),
    format_comma_2f (S754_finite s m e)
    = signed s (whole ++ "."%char :: frac) /\
    grouped whole = true /\
    remove_commas whole = digits (n / 100) /\
    frac = zero_pad 2 (Z.of_N (n mod 100)) /\
    length frac = 2%nat /\ forallb is_digit frac = true /\
    ((0 <= e)%Z -> Z.of_N n = (Zpos m * 100 * 2 ^ e)%Z) /\
    (forall k, e = Zneg k ->
       (2 * Z.abs (Z.of_N n * 2 ^ Zpos k - Zpos m * 100) <= 2 ^ Zpos k)%Z).
Proof.
  exists (round_half_even (m * 100) e),
         (group3 (digits (round_half_even (m * 100) e / 100))),
         (zero_pad 2 (Z.of_N (round_half_even (m * 100) e mod 100))).
  split; [reflexivity|].
  split; [apply grouped_group3;
          [apply digits_nonempty|apply digits_all_digit]|].
  split; [apply remove_commas_group3, digits_all_digit|].
  split; [reflexivity|].
  destruct (zero_pad_2 (Z.of_N (round_half_even (m * 100) e mod 100)))
    as (a & b & -> & Hd).
  { assert (Hr : (round_half_even (m * 100) e mod 100 < 100)%N)
      by (by apply N.mod_upper_bound).
    revert Hr. generalize (round_half_even (m * 100) e mod 100)%N.
    intros r Hr. lia. }
  split; [reflexivity|]. split; [exact Hd|]. split.
  - intros He. rewrite round_half_even_exact by done. lia.
  - intros k ->.
    pose proof (round_half_even_nearest (m * 100) k) as [H _].
    cbv zeta in H. lia.
Qed.

Example format_comma_2f_examples :
  map (fun t => match float_of_str t with
                | Ok v => format_comma_2f v
                | Raise _ => "ValueError"
                end)
      ["1234567.89"; "0.005"; "2.675"; "-0.001"; "0.125"; "99.995"]
  = ["1,234,567.89"; "0.01"; "2.67"; "-0.00"; "0.12"; "100.00"]%string.
Proof. vm_compute. reflexivity. Qed.

End PageProperties.

Section PageExamples.

Import Page.

Lemma statement_block_exports_raw_witness :
  exists shown h',
    statement_block Demo.to_csv "Income Statement" "2023-12-31"
      (Some Sample.view) "Download Income Statement (latest year)"
      "ABC.X_income_statement_latest_year.csv" ∅
    = ([StMarkdown ("**Income Statement**  " ++ newline
                    ++ "_Period end: 2023-12-31_");
        StDataframe (Some shown) true;
        StDownloadButton "Download Income Statement (latest year)"
          "Item,Value" "ABC.X_income_statement_latest_year.csv" "text/csv"],
       h', Done tt).
Proof.
  destruct (statement_block_exports_raw Demo.to_csv
              "Income Statement" "2023-12-31"
              Sample.view "Download Income Statement (latest year)"
              "ABC.X_income_statement_latest_year.csv" ∅ eq_refl)
    as (shown & h' & E & _).
  exists shown, h'. exact E.
Defined.
Lemma page_entry_witness :
  Demo.page "  " ∅
  = ([StPageConfig "Price & Financials" "wide";
      StTitle "Price & Financials (Ticker-driven)";
      StTextInput "Ticker (use exchange suffix if needed, e.g., LSEG.L)"
        "LSEG.L";
      StInfo "Enter a ticker to load the chart and statements."],
     ∅, Done tt) /\
  Demo.page " DOWN.X " ∅
  = ([StPageConfig "Price & Financials" "wide";
      StTitle "Price & Financials (Ticker-driven)";
      StTextInput "Ticker (use exchange suffix if needed, e.g., LSEG.L)"
        "LSEG.L"],
     ∅, Crashed (PyExn (ProviderError "timeout"))).
Proof.
  split.
  - apply (page_entry Sample.provider Sample.iso_to_datetime Demo.to_csv
             Demo.format_other Demo.str_other "  " ∅).
    reflexivity.
  - apply (page_entry Sample.provider Sample.iso_to_datetime Demo.to_csv
             Demo.format_other Demo.str_other " DOWN.X " ∅).
    + discriminate.
    + reflexivity.
Defined.

Lemma header_caption_witness :
  header Demo.str_other "abc.x" Demo.abc_data ∅
  = ([StSubheader "Ticker: **ABC.X**";
      StCaption "Instrument name: ABC Corp"], ∅, Done tt).
Proof.
  exact (proj1 (header_caption Demo.str_other "abc.x" Demo.abc_data ∅)
           eq_refl).
Defined.

Lemma chartable_abc : chartable Demo.format_other (hist Demo.abc_data).
Proof.
  right. exists (LStr "Close"), [Sample.float_10; Sample.float_11],
    Sample.float_11, "11.00"%string, (Sample.date 2023 1 2).
  repeat split.
Defined.

Lemma page_completes_witness :
  exists ws h',
    Demo.page " ABC.X" ∅ = (ws, h', Done tt) /\ downloads ws = 2%nat.
Proof.
  destruct (page_completes Sample.provider Sample.iso_to_datetime Demo.to_csv
              Demo.format_other Demo.str_other " ABC.X" Demo.abc_data ∅)
    as (ws & h' & E & Hd & _).
  - discriminate.
  - reflexivity.
  - discriminate.
  - exact chartable_abc.
  - exists ws, h'. split; [exact E|exact Hd].
Defined.

Lemma price_block_outcomes_witness :
  price_block Demo.to_csv Demo.format_other "ABC.X" Demo.abc_data ∅
  = ([StMetric "Last Close (most recent obs.)" "11.00" "2023-01-02";
      StSubheader "5-Year Daily Close";
      StLineChart (index (hist Demo.abc_data))
        [[Sample.float_10; Sample.float_11]];
      StDownloadButton "Download 5y CSV" ",Close"
        "ABC.X_5y_daily_close.csv" "text/csv"],
     ∅, Done tt).
Proof.
  exact (proj2 (price_block_outcomes Demo.to_csv Demo.format_other "ABC.X"
                  Demo.abc_data ∅)
           (LStr "Close") [Sample.float_10; Sample.float_11] Sample.float_11
           (LTime (Sample.date 2023 1 2)) eq_refl eq_refl eq_refl eq_refl).
Defined.

End PageExamples.
